(** * Financial News Sentiment Dashboard

    A shallow embedding of [streamlit_financial_dashboard.py]: the Streamlit
    script that asks for a NewsAPI key, fetches fifteen recent articles,
    scores each with VADER, shows a table, three charts and a CSV export,
    and finally analyses one article given by URL.

    The script is straight-line Python over four libraries.  The Python
    it executes itself ([dict.get], [or], [+], the [for] loop, the
    conditional expressions, [try]/[except]) is modelled below as it is
    evaluated; the libraries are modelled by their documented behaviour
    where the script depends on it (pandas frames) and are taken as
    parameters where they are oracles (the VADER scorer, the HTTP
    transport, the article extractor, the date parser). *)

From Stdlib Require Import ZArith List String Ascii Bool Lia Floats.
From Stdlib Require Import Permutation Sorted.
Import ListNotations.

Set Warnings "-inexact-float,-register-all".
Local Open Scope string_scope.

(* ===================================================================== *)
(** ** Python objects and the operations the script performs on them *)
(* ===================================================================== *)

Module Py.

(** The objects [response.json()] can return, which are also the objects
    the script stores in its rows. A [dict] keeps its items in insertion
    order, with distinct keys. Text is kept as UTF-8 bytes. *)
Inductive pyval : Type :=
| PNone
| PBool (b : bool)
| PInt (z : Z)
| PFloat (f : float)
| PStr (s : string)
| PList (items : list pyval)
| PDict (items : list (string * pyval)).

Definition dict : Type := list (string * pyval).

(** Exceptions. The first four are raised by the interpreter or by pandas
    on the script's own operations; [LibraryError] stands for any
    [Exception] raised inside a collaborator (requests, newspaper, the
    date parser) and carries what [str(e)] returns. *)
Inductive exn : Type :=
| AttributeError (type_name attr : string)
| TypeError (descr : string)
| KeyError (key : string)
| ValueError (descr : string)
| LibraryError (descr : string).

Inductive result (A : Type) : Type :=
| Ok (a : A)
| Raise (e : exn).
Arguments Ok {A} a.
Arguments Raise {A} e.

Definition bind {A B : Type} (r : result A) (k : A -> result B) : result B :=
  match r with
  | Ok a => k a
  | Raise e => Raise e
  end.

Declare Scope py_scope.
Delimit Scope py_scope with py.
Notation "x <- e ;; k" := (bind e (fun x => k))
  (at level 61, e at next level, right associativity) : py_scope.
Local Open Scope py_scope.

(** [str(e)] *)
Definition str_exn (e : exn) : string :=
  match e with
  | AttributeError t a => "'" ++ t ++ "' object has no attribute '" ++ a ++ "'"
  | TypeError d => d
  | KeyError k => "'" ++ k ++ "'"
  | ValueError d => d
  | LibraryError d => d
  end.

(** [type(v).__name__] *)
Definition type_name (v : pyval) : string :=
  match v with
  | PNone => "NoneType"
  | PBool _ => "bool"
  | PInt _ => "int"
  | PFloat _ => "float"
  | PStr _ => "str"
  | PList _ => "list"
  | PDict _ => "dict"
  end.

(** Truth value testing: [None], [False], zero, and empty text, list and
    dict are false; every other object is true (a NaN included). *)
Definition truthy (v : pyval) : bool :=
  match v with
  | PNone => false
  | PBool b => b
  | PInt z => negb (z =? 0)%Z
  | PFloat f => negb (f =? 0)%float
  | PStr s => negb (s =? "")
  | PList l => match l with [] => false | _ => true end
  | PDict d => match d with [] => false | _ => true end
  end.

(** [a or b] *)
Definition py_or (a b : pyval) : pyval := if truthy a then a else b.

(** [d[k]] on the items of a dict. *)
Fixpoint lookup {V : Type} (k : string) (items : list (string * V)) : option V :=
  match items with
  | [] => None
  | (k', v) :: rest => if k' =? k then Some v else lookup k rest
  end.

(** [obj.get(k, default)]: only a dict has the method. *)
Definition py_get (obj : pyval) (k : string) (default : pyval) : result pyval :=
  match obj with
  | PDict items =>
      match lookup k items with
      | Some v => Ok v
      | None => Ok default
      end
  | _ => Raise (AttributeError (type_name obj) "get")
  end.

Definition dquote : string := String (ascii_of_nat 34) EmptyString.

(** [a + s] where [s] is text: defined when [a] is text too. *)
Definition py_add_text (a : pyval) (s : string) : result string :=
  match a with
  | PStr t => Ok (t ++ s)
  | PList _ =>
      Raise (TypeError ("can only concatenate list (not " ++ dquote ++ "str"
                        ++ dquote ++ ") to list"))
  | _ =>
      Raise (TypeError ("unsupported operand type(s) for +: '" ++ type_name a
                        ++ "' and 'str'"))
  end.

(** [t + b] where [t] is text: defined when [b] is text too. *)
Definition py_text_add (t : string) (b : pyval) : result string :=
  match b with
  | PStr s => Ok (t ++ s)
  | _ =>
      Raise (TypeError ("can only concatenate str (not " ++ dquote ++ type_name b
                        ++ dquote ++ ") to str"))
  end.

Fixpoint chars (s : string) : list pyval :=
  match s with
  | EmptyString => []
  | String c rest => PStr (String c EmptyString) :: chars rest
  end.

(** The items a [for] loop draws from an object: the elements of a list,
    the characters of a text, the keys of a dict; nothing else the JSON
    decoder returns is iterable. *)
Definition py_iter (v : pyval) : result (list pyval) :=
  match v with
  | PList items => Ok items
  | PStr s => Ok (chars s)
  | PDict items => Ok (map (fun kv => PStr (fst kv)) items)
  | _ => Raise (TypeError ("'" ++ type_name v ++ "' object is not iterable"))
  end.

Fixpoint mapM {A B : Type} (f : A -> result B) (l : list A) : result (list B) :=
  match l with
  | [] => Ok []
  | a :: rest => b <- f a ;; bs <- mapM f rest ;; Ok (b :: bs)
  end.

End Py.
Export Py.
Local Open Scope py_scope.

(* ===================================================================== *)
(** ** pandas: the frame operations the script calls *)
(* ===================================================================== *)

Module Pandas.

(** A frame is a list of column names and a list of rows, each row
    giving a cell for every column. A cell is the Python object that
    [x[c]] returns from a row; what it is depends on the dtype
    [pd.DataFrame] chose for the column (see [DataFrame_of]): the
    columns of the script hold text and missing values, except
    [Compound], which holds the scores. The index is left out: the
    script never reads it, and every frame it builds is indexed by
    position. *)

(** A parsed time stamp (nanoseconds since the epoch) or the missing
    value [NaT]. *)
Inductive datetime : Type :=
| Timestamp (ns : Z)
| NaT.

(** A cell of the frame once [Published At] has been converted: the
    object the row was built with, or a date-time value. *)
Inductive cell : Type :=
| Obj (v : pyval)
| Time (d : datetime).

(** One row, labelled by the column names: what [apply(..., axis=1)]
    hands to its function. *)
Definition Series (C : Type) : Type := list (string * C).

Record DataFrame (C : Type) : Type := mkFrame
  { columns : list string;
    rows : list (Series C) }.
Arguments mkFrame {C} columns rows.
Arguments columns {C} d.
Arguments rows {C} d.

Section Frames.
Context {C : Type}.

Definition has_column (df : DataFrame C) (c : string) : bool :=
  existsb (String.eqb c) (columns df).

(** [x[c]] on a row. *)
Definition series_get (x : Series C) (c : string) : result C :=
  match lookup c x with
  | Some v => Ok v
  | None => Raise (KeyError c)
  end.

(** [df[c]]: the column, or [KeyError] when the frame has no such
    column (whatever the number of rows). *)
Definition getitem (df : DataFrame C) (c : string) : result (list C) :=
  if has_column df c
  then mapM (fun x => series_get x c) (rows df)
  else Raise (KeyError c).

(** [df[[c1, ..., cn]]]: the sub-frame with these columns, in this order;
    [KeyError] (here naming the first absent column) when one is absent. *)
Definition select (df : DataFrame C) (cs : list string) : result (DataFrame C) :=
  match filter (fun c => negb (has_column df c)) cs with
  | [] =>
      rs <- mapM (fun x => mapM (fun c => v <- series_get x c ;; Ok (c, v)) cs)
                 (rows df) ;;
      Ok (mkFrame cs rs)
  | absent :: _ => Raise (KeyError absent)
  end.

Fixpoint set_in_row (c : string) (v : C) (x : Series C) : Series C :=
  match x with
  | [] => [(c, v)]
  | (k, w) :: rest =>
      if k =? c then (k, v) :: rest else (k, w) :: set_in_row c v rest
  end.

(** [df[c] = vals]: replaces the column, or adds it as the last one. *)
Definition setitem (df : DataFrame C) (c : string) (vals : list C)
  : result (DataFrame C) :=
  if Nat.eqb (List.length vals) (List.length (rows df))
  then Ok (mkFrame (if has_column df c then columns df else columns df ++ [c])
                   (map (fun xv => set_in_row c (snd xv) (fst xv))
                        (combine (rows df) vals)))
  else Raise (ValueError "Length of values does not match length of index").

(** A stable insertion sort: [DataFrame.sort_values] and [value_counts]
    order their rows with it. pandas does not promise the order of rows
    with equal keys; the model keeps them in input order. *)
Fixpoint insert_by {A : Type} (leb : A -> A -> bool) (a : A) (l : list A) : list A :=
  match l with
  | [] => [a]
  | b :: rest => if leb a b then a :: l else b :: insert_by leb a rest
  end.

Fixpoint sort_by {A : Type} (leb : A -> A -> bool) (l : list A) : list A :=
  match l with
  | [] => []
  | a :: rest => insert_by leb a (sort_by leb rest)
  end.

Definition map_cells {D : Type} (f : C -> D) (df : DataFrame C) : DataFrame D :=
  mkFrame (columns df)
          (map (fun x => map (fun kv => (fst kv, f (snd kv))) x) (rows df)).

(** [Series.value_counts()]: each distinct value in order of first
    appearance with its number of occurrences, most frequent first. *)
Fixpoint tally (eqb : C -> C -> bool) (v : C) (acc : list (C * nat)) : list (C * nat) :=
  match acc with
  | [] => [(v, 1)]
  | (w, n) :: rest =>
      if eqb w v then (w, S n) :: rest else (w, n) :: tally eqb v rest
  end.

Definition value_counts (eqb : C -> C -> bool) (col : list C) : list (C * nat) :=
  sort_by (fun a b => Nat.leb (snd b) (snd a))
          (fold_left (fun acc v => tally eqb v acc) col []).

End Frames.

(** [pd.DataFrame(data)] for a list of dicts: the columns are the keys in
    order of first appearance, a key a dict lacks is filled with NaN, and
    an empty list gives a frame with no column and no row. *)
Fixpoint add_keys (seen ks : list string) : list string :=
  match ks with
  | [] => seen
  | k :: rest =>
      add_keys (if existsb (String.eqb k) seen then seen else seen ++ [k]) rest
  end.

Definition union_keys (data : list dict) : list string :=
  fold_left (fun seen d => add_keys seen (map fst d)) data [].

Definition fill (cols : list string) (d : dict) : Series pyval :=
  map (fun c => (c, match lookup c d with
                    | Some v => v
                    | None => PFloat PrimFloat.nan
                    end)) cols.

(** NaN, the missing value of a float64 column and of a string
    column. *)
Definition NaN : pyval := PFloat PrimFloat.nan.

(** The entries pandas counts as missing: [None] and NaN. *)
Definition is_missing (v : pyval) : bool :=
  match v with
  | PNone => true
  | PFloat f => PrimFloat.is_nan f
  | _ => false
  end.

Definition int64 (z : Z) : bool := (- 2 ^ 63 <=? z)%Z && (z <? 2 ^ 63)%Z.

(** [float(z)]: the nearest binary64. *)
Definition float_of_int (z : Z) : float :=
  SF2Prim (binary_normalize prec emax z 0 false).

(** The dtype [pd.DataFrame] infers for a column of Python objects, as
    far as it changes what the cells hold:
    - [float64], for a column of numbers and [None] that holds a number
      and is not made of integers only: [None] becomes NaN and an
      integer becomes a float;
    - the string dtype, for a column of text and missing values that
      holds a text, when the option [future.infer_string] is on;
    - in every other case the cells are returned as they were given (a
      column of integers or of booleans also gets a dtype of its own,
      but gives back the same integers and booleans).
    Integers are taken in the int64 range; a column with a larger one
    is left to the last case. *)
Inductive dtype : Type :=
| dt_float64
| dt_str
| dt_object.

Definition float64_entry (v : pyval) : bool :=
  match v with
  | PNone | PFloat _ => true
  | PInt z => int64 z
  | _ => false
  end.

Definition string_entry (v : pyval) : bool :=
  match v with
  | PNone | PStr _ => true
  | PFloat f => PrimFloat.is_nan f
  | _ => false
  end.

Definition infer_dtype (infer_string : bool) (col : list pyval) : dtype :=
  if forallb float64_entry col
     && existsb (fun v => match v with PInt _ | PFloat _ => true | _ => false end) col
     && existsb (fun v => match v with PInt _ => false | _ => true end) col
  then dt_float64
  else if infer_string
          && forallb string_entry col
          && existsb (fun v => match v with PStr _ => true | _ => false end) col
  then dt_str
  else dt_object.

(** What a cell of a column of dtype [d] holds for the object [v]. *)
Definition astype (d : dtype) (v : pyval) : pyval :=
  match d, v with
  | dt_float64, PNone => NaN
  | dt_float64, PInt z => PFloat (float_of_int z)
  | dt_str, PNone => NaN
  | _, _ => v
  end.

(** The entries of a column, row by row. *)
Definition column (c : string) (rs : list (Series pyval)) : list pyval :=
  map (fun x => match lookup c x with
                | Some v => v
                | None => NaN
                end) rs.

(** [infer_string] is the value of [pd.options.future.infer_string]:
    off by default before pandas 3, on by default from pandas 3. *)
Definition DataFrame_of (infer_string : bool) (data : list dict) : DataFrame pyval :=
  let cols := union_keys data in
  let raw := map (fill cols) data in
  mkFrame cols
          (map (fun x =>
                  map (fun kv =>
                         (fst kv,
                          astype (infer_dtype infer_string (column (fst kv) raw))
                                 (snd kv))) x)
               raw).

(** [df.apply(f, axis=1)]. On a frame with rows and columns, [f] is
    called on every row and the results form a Series. On an empty frame
    pandas probes [f] with a row of NaN: if the probe raises, the result
    is a copy of the frame itself; if it returns, the result is a Series
    with one entry per row, each [f] of the empty row. *)
Inductive applied : Type :=
| AppliedSeries (vals : list pyval)
| AppliedFrame (df : DataFrame pyval).

Definition apply_rows (df : DataFrame pyval) (f : Series pyval -> result pyval)
  : result applied :=
  match rows df, columns df with
  | _ :: _, _ :: _ => vals <- mapM f (rows df) ;; Ok (AppliedSeries vals)
  | rs, cols =>
      match f (map (fun c => (c, PFloat PrimFloat.nan)) cols) with
      | Raise _ => Ok (AppliedFrame df)
      | Ok _ =>
          match rs with
          | [] => Ok (AppliedSeries [])
          | _ => r <- f [] ;; Ok (AppliedSeries (map (fun _ => r) rs))
          end
      end
  end.

(** [df[c] = value] where [value] is what [apply] returned. A Series
    becomes the column; a frame must have exactly one column to be
    stored as one. *)
Definition setitem_applied (df : DataFrame pyval) (c : string) (value : applied)
  : result (DataFrame pyval) :=
  match value with
  | AppliedSeries vals => setitem df c vals
  | AppliedFrame v =>
      match columns v with
      | [c0] => vals <- getitem v c0 ;; setitem df c vals
      | [] =>
          if has_column df c
          then Raise (ValueError "Columns must be same length as key")
          else Raise (ValueError
                 ("Cannot set a DataFrame without columns to the column " ++ c))
      | _ =>
          if has_column df c
          then Raise (ValueError "Columns must be same length as key")
          else Raise (ValueError
                 ("Cannot set a DataFrame with multiple columns to the single column "
                  ++ c))
      end
  end.

(** [pd.to_datetime(col)] with the default [errors='raise']: a missing
    entry ([None] or NaN) becomes [NaT]; every other entry goes through
    the parser, which sees the whole column (the format is inferred
    from it) and whose exception, if any, is the call's. *)
Definition to_datetime (parse : list pyval -> pyval -> result datetime)
                       (col : list pyval) : result (list datetime) :=
  mapM (fun v => if is_missing v then Ok NaT else parse col v) col.

(** Ascending order of date-times, missing values last. *)
Definition datetime_leb (a b : datetime) : bool :=
  match a, b with
  | Timestamp x, Timestamp y => (x <=? y)%Z
  | _, NaT => true
  | NaT, Timestamp _ => false
  end.

(** The sort key of a row: the script sorts by the converted column
    only, whose cells are all date-times. *)
Definition time_key (c : string) (x : Series cell) : datetime :=
  match lookup c x with
  | Some (Time d) => d
  | _ => NaT
  end.

(** [df.sort_values(c)]: a new frame; [df] itself is not modified. *)
Definition sort_values (df : DataFrame cell) (c : string) : result (DataFrame cell) :=
  if has_column df c
  then Ok (mkFrame (columns df)
                   (sort_by (fun x y => datetime_leb (time_key c x) (time_key c y))
                            (rows df)))
  else Raise (KeyError c).

End Pandas.
Export Pandas.

(* ===================================================================== *)
(** ** Streamlit: what one run of the script does, as a trace *)
(* ===================================================================== *)

Module St.

(** An Altair chart: the frame it draws, its mark with the mark's
    options, its encoding channels with the options of the channel, its
    tooltip fields and its properties. *)
Record Chart : Type := mkChart
  { chart_data : DataFrame cell;
    mark : string;
    mark_options : list (string * string);
    encoding : list (string * string);
    tooltip : list string;
    properties : list (string * Z) }.

(** The effects of a run, in the order they happen: the widgets and
    elements sent to the page, and the HTTP request. *)
Inductive event : Type :=
| SetPageConfig (page_title layout : string)
| Title (text : string)
| SidebarTextInput (label : string)
| TextInput (label : string)
| Warning (text : string)
| Error (text : string)
| Subheader (text : string)
| Write (text : string)
| WriteHtml (table : DataFrame pyval)
| AltairChart (c : Chart)
| DownloadButton (label : string) (csv : DataFrame cell) (file_name mime : string)
| Markdown (text : string)
| Expander (label : string) (body : list event)
| HttpGet (url : string) (params : dict).

(** How a run ends: it reaches the end of the script, dies on an
    exception nothing catches, or is halted by [st.stop()]. *)
Inductive outcome (A : Type) : Type :=
| Done (a : A)
| Uncaught (e : exn)
| Stopped.
Arguments Done {A} a.
Arguments Uncaught {A} e.
Arguments Stopped {A}.

Definition script (A : Type) : Type := (list event * outcome A)%type.

Definition ret {A : Type} (a : A) : script A := ([], Done a).

Definition seq {A B : Type} (m : script A) (k : A -> script B) : script B :=
  match m with
  | (t, Done a) => let (t', o) := k a in ((t ++ t')%list, o)
  | (t, Uncaught e) => (t, Uncaught e)
  | (t, Stopped) => (t, Stopped)
  end.

Definition emit (e : event) : script unit := ([e], Done tt).

(** [st.stop()] *)
Definition stop {A : Type} : script A := ([], Stopped).

(** A Python expression evaluated by the script: its exception, if any,
    is the script's. *)
Definition lift {A : Type} (r : result A) : script A :=
  match r with
  | Ok a => ret a
  | Raise e => ([], Uncaught e)
  end.

(** [try: body / except Exception as e: handler(e)] *)
Definition try_except {A : Type} (body : script A) (handler : exn -> script A)
  : script A :=
  match body with
  | (t, Uncaught e) => let (t', o) := handler e in ((t ++ t')%list, o)
  | done_or_stopped => done_or_stopped
  end.

Definition trace {A : Type} (m : script A) : list event := fst m.
Definition ending {A : Type} (m : script A) : outcome A := snd m.

Declare Scope st_scope.
Delimit Scope st_scope with st.
Notation "x <~ m ;; k" := (seq m (fun x => k))
  (at level 61, m at next level, right associativity) : st_scope.
Notation "m ;;> k" := (seq m (fun _ => k))
  (at level 61, right associativity) : st_scope.

End St.
Export St.
Local Open Scope st_scope.

(* ===================================================================== *)
(** ** The dashboard script *)
(* ===================================================================== *)

(** What [requests.get] returns: the status code and what
    [response.json()] gives (it raises on a body that is not JSON). *)
Record Response : Type := mkResponse
  { status_code : Z;
    json : result pyval }.

(** What newspaper's [Article] holds after [parse()]. *)
Record Article : Type := mkArticle
  { title : string;
    text : string }.

Section Dashboard.

(** The installed pandas: the repository pins no version, and the
    default of [future.infer_string] differs from pandas 2 to
    pandas 3. *)
Variable infer_string : bool.

(** The collaborators. *)

(** [analyzer.polarity_scores(text)["compound"]] *)
Variable polarity_scores : string -> float.

(** [requests.get(url, params=params)] *)
Variable requests_get : string -> dict -> result Response.

(** pandas' conversion of one entry of a column to a date-time. *)
Variable parse_datetime : list pyval -> pyval -> result datetime.

(** [str(v)] for an object that is neither text nor [None]. *)
Variable py_repr : pyval -> string.

(** [from newspaper import Article], [article.download()] (giving the
    page) and [article.parse()]. *)
Variable import_newspaper : result unit.
Variable download : string -> result string.
Variable parse : string -> result Article.

(** What an f-string puts in place of [{v}]. *)
Definition py_str (v : pyval) : string :=
  match v with
  | PStr s => s
  | PNone => "None"
  | _ => py_repr v
  end.

(** *** Fetch news (lines 17-32) *)

Definition url : string := "https://newsapi.org/v2/everything".

Definition params (api_key : string) : dict :=
  [ ("q", PStr "stock market OR finance OR bitcoin OR earnings");
    ("language", PStr "en");
    ("sortBy", PStr "publishedAt");
    ("pageSize", PInt 15);
    ("apiKey", PStr api_key) ].

Definition fetch (api_key : string) : script pyval :=
  emit (HttpGet url (params api_key)) ;;>
  response <~ lift (requests_get url (params api_key)) ;;
  (if negb (status_code response =? 200)%Z
   then emit (Error "Failed to fetch articles. Check your API key or try again later.") ;;>
        stop
   else ret tt) ;;>
  body <~ lift (json response) ;;
  lift (py_get body "articles" (PList [])).

(** *** The transformation loop (lines 35-48) *)

Definition sentiment_class (compound : float) : string :=
  if (0.05 <? compound)%float then "positive"
  else if (compound <? -0.05)%float then "negative"
  else "neutral".

(** The body of the loop: the row appended for one article. *)
Definition build_record (article : pyval) : result dict :=
  t <- py_get article "title" PNone ;;
  t_sp <- py_add_text (py_or t (PStr "")) " " ;;
  d <- py_get article "description" PNone ;;
  content <- py_text_add t_sp (py_or d (PStr "")) ;;
  let compound := polarity_scores content in
  Title <- py_get article "title" PNone ;;
  Description <- py_get article "description" PNone ;;
  URL <- py_get article "url" PNone ;;
  source <- py_get article "source" (PDict []) ;;
  Source <- py_get source "name" (PStr "") ;;
  Published <- py_get article "publishedAt" PNone ;;
  Ok [ ("Title", Title);
       ("Description", Description);
       ("URL", URL);
       ("Sentiment", PStr (sentiment_class compound));
       ("Compound", PFloat compound);
       ("Source", Source);
       ("Published At", Published) ].

(** [for article in articles: ... data.append({...})] *)
Fixpoint transform (articles : list pyval) (data : list dict) : result (list dict) :=
  match articles with
  | [] => Ok data
  | article :: rest =>
      row <- build_record article ;;
      transform rest (data ++ [row])
  end.

(** *** The table with clickable titles (lines 52-61) *)

Definition make_clickable (link text : pyval) : string :=
  "<a href='" ++ py_str link ++ "' target='_blank'>" ++ py_str text ++ "</a>".

(** [lambda x: make_clickable(x["URL"], x["Title"] if x["Title"] else "View Article")] *)
Definition clickable_title (x : Series pyval) : result pyval :=
  link <- series_get x "URL" ;;
  cond <- series_get x "Title" ;;
  shown <- (if truthy cond then series_get x "Title" else Ok (PStr "View Article")) ;;
  Ok (PStr (make_clickable link shown)).

Definition table_columns : list string :=
  ["Title"; "Sentiment"; "Compound"; "Source"; "Published At"].

Definition show_table (df : DataFrame pyval) : script unit :=
  emit (Subheader "📰 Articles & Sentiment") ;;>
  let styled_df := df in
  value <~ lift (apply_rows styled_df clickable_title) ;;
  styled_df <~ lift (setitem_applied styled_df "Title" value) ;;
  emit (Write "Click on a title to read the full article.") ;;>
  table <~ lift (select styled_df table_columns) ;;
  emit (WriteHtml table).

(** *** The pie chart of labels (lines 63-74) *)

(** Equality of two entries of the [Sentiment] column, which holds the
    label texts written by the loop. *)
Definition same_text (a b : pyval) : bool :=
  match a, b with
  | PStr x, PStr y => x =? y
  | _, _ => false
  end.

(** [.reset_index()] followed by the renaming of the two columns. *)
Definition counts_frame (counts : list (pyval * nat)) : DataFrame pyval :=
  mkFrame ["Sentiment"; "Count"]
          (map (fun vn => [("Sentiment", fst vn); ("Count", PInt (Z.of_nat (snd vn)))])
               counts).

Definition chart (sentiment_counts : DataFrame pyval) : Chart :=
  mkChart (map_cells Obj sentiment_counts)
          "arc" [("innerRadius", "50")]
          [("theta", "Count"); ("color", "Sentiment")]
          ["Sentiment"; "Count"]
          [("width", 400%Z); ("height", 400%Z)].

Definition show_distribution (df : DataFrame pyval) : script unit :=
  emit (Subheader "📊 Sentiment Distribution") ;;>
  col <~ lift (getitem df "Sentiment") ;;
  let sentiment_counts := counts_frame (value_counts same_text col) in
  emit (AltairChart (chart sentiment_counts)).

(** *** The bar chart of scores (lines 76-85)

    [st.altair_chart] ships the frame of the chart to the browser. The
    conversion this needs is taken to succeed, as it does on text,
    missing values and floats, which are the cells NewsAPI articles
    give; what Streamlit does with a cell it cannot convert is not
    modelled. *)

Definition bar_chart (df : DataFrame pyval) : Chart :=
  mkChart (map_cells Obj df)
          "bar" []
          [("x", "Title:N"); ("x.sort", "-y"); ("x.title", "Article");
           ("y", "Compound:Q"); ("color", "Sentiment:N")]
          ["Title"; "Compound"; "Sentiment"]
          [("height", 400%Z)].

Definition show_scores (df : DataFrame pyval) : script unit :=
  emit (Subheader "📉 Article Sentiment Scores") ;;>
  emit (AltairChart (bar_chart df)).

(** *** The trend over time (lines 87-98)

    Line 89 rebinds the [Published At] column of [df] itself; the frame
    it leaves is returned, since line 101 exports it. *)

Definition line_chart (df_sorted : DataFrame cell) : Chart :=
  mkChart df_sorted
          "line" [("point", "True")]
          [("x", "Published At:T"); ("y", "Compound:Q"); ("color", "Sentiment:N")]
          ["Title"; "Published At"; "Compound"; "Sentiment"]
          [].

Definition show_trend (df : DataFrame pyval) : script (DataFrame cell) :=
  emit (Subheader "📅 Sentiment Over Time") ;;>
  col <~ lift (getitem df "Published At") ;;
  times <~ lift (to_datetime parse_datetime col) ;;
  df <~ lift (setitem (map_cells Obj df) "Published At" (map Time times)) ;;
  df_sorted <~ lift (sort_values df "Published At") ;;
  emit (AltairChart (line_chart df_sorted)) ;;>
  ret df.

(** *** The CSV download (lines 100-101) *)

Definition offer_csv (df : DataFrame cell) : script unit :=
  emit (DownloadButton "Download CSV" df "financial_news_sentiment.csv" "text/csv").

(** *** Custom URL sentiment analysis (lines 103-121) *)

Definition sentiment_label (compound : float) : string :=
  if (0.05 <? compound)%float then "positive"
  else if (compound <? -0.05)%float then "negative"
  else "neutral".

Definition analyze (custom_url : string) : script unit :=
  try_except
    (_ <~ lift import_newspaper ;;
     page <~ lift (download custom_url) ;;
     article <~ lift (parse page) ;;
     let article_text := title article ++ " " ++ text article in
     let compound := polarity_scores article_text in
     emit (Markdown ("**Title:** " ++ title article)) ;;>
     emit (Markdown ("**Sentiment:** `" ++ sentiment_label compound
                     ++ "` with score `" ++ py_str (PFloat compound) ++ "`")) ;;>
     emit (Expander "View full article text" [Write (text article)]))
    (fun e => emit (Error ("Failed to analyze the article. Reason: " ++ str_exn e))).

Definition custom_url_section (custom_url : string) : script unit :=
  emit (Subheader "🔍 Analyze Custom News URL") ;;>
  emit (TextInput "Paste a news article URL to analyze its sentiment") ;;>
  if truthy (PStr custom_url) then analyze custom_url else ret tt.

(** *** The whole script *)

(** Lines 32-101: everything drawn from the fetched articles. *)
Definition batch (articles : pyval) : script unit :=
  items <~ lift (py_iter articles) ;;
  data <~ lift (transform items []) ;;
  let df := DataFrame_of infer_string data in
  show_table df ;;>
  show_distribution df ;;>
  show_scores df ;;>
  df <~ show_trend df ;;
  offer_csv df.

(** Lines 7-101: the page header, the key, the fetch and the batch. *)
Definition main_page (api_key : string) : script unit :=
  emit (SetPageConfig "Financial News Sentiment" "wide") ;;>
  emit (Title "📈 Financial News Sentiment Dashboard") ;;>
  emit (SidebarTextInput "Enter your NewsAPI Key") ;;>
  (if negb (truthy (PStr api_key))
   then emit (Warning "Please enter your NewsAPI key in the sidebar.") ;;> stop
   else ret tt) ;;>
  articles <~ fetch api_key ;;
  batch articles.

(** One run, for the key typed in the sidebar and the URL typed in the
    last text box. *)
Definition dashboard (api_key custom_url : string) : script unit :=
  main_page api_key ;;>
  custom_url_section custom_url.

End Dashboard.

(* ===================================================================== *)
(** ** Vocabulary of the statements *)
(* ===================================================================== *)

(** The keys of the row the loop appends, in the order of the literal. *)
Definition record_keys : list string :=
  ["Title"; "Description"; "URL"; "Sentiment"; "Compound"; "Source"; "Published At"].

Definition record (Title Description URL Sentiment Compound Source Published : pyval)
  : dict :=
  [ ("Title", Title); ("Description", Description); ("URL", URL);
    ("Sentiment", Sentiment); ("Compound", Compound); ("Source", Source);
    ("Published At", Published) ].

(** A row with exactly the keys of the literal. *)
Definition shaped (row : dict) : Prop :=
  exists T D U S C So P, row = record T D U S C So P.

(** [article.get(k)] on the items of an article, and [row[k]] on a row:
    [None] stands for an absent key as for a null value. *)
Definition field (items : dict) (k : string) : pyval :=
  match lookup k items with
  | Some v => v
  | None => PNone
  end.

Definition text_or_null (v : pyval) : bool :=
  match v with
  | PNone | PStr _ => true
  | _ => false
  end.

(** An article as NewsAPI documents it: an object whose [title],
    [description], [url] and [publishedAt], when present, are text or
    null, and whose [source], when present, is an object with a text or
    null [name]. *)
Definition newsapi_article (a : pyval) : bool :=
  match a with
  | PDict items =>
      text_or_null (field items "title")
      && text_or_null (field items "description")
      && text_or_null (field items "url")
      && text_or_null (field items "publishedAt")
      && match lookup "source" items with
         | None => true
         | Some (PDict src) => text_or_null (field src "name")
         | Some _ => false
         end
  | _ => false
  end.

(** The text a text-or-null field contributes to the scored content. *)
Definition text_of (v : pyval) : string :=
  match v with
  | PStr s => s
  | _ => ""
  end.

(** The text handed to the scorer for a NewsAPI article. *)
Definition content_of (items : dict) : string :=
  (text_of (field items "title") ++ " ") ++ text_of (field items "description").

(** The [Source] entry of the row of a NewsAPI article. *)
Definition source_name (items : dict) : pyval :=
  match lookup "source" items with
  | Some (PDict src) =>
      match lookup "name" src with
      | Some v => v
      | None => PStr ""
      end
  | _ => PStr ""
  end.

(** The label agrees with the two thresholds. *)
Definition threshold_rule (c : float) (label : string) : Prop :=
  (label = "positive" <-> (0.05 <? c)%float = true) /\
  (label = "negative" <-> (c <? -0.05)%float = true) /\
  (label = "neutral" <-> (0.05 <? c)%float = false /\ (c <? -0.05)%float = false).

(** The text of the link shown for a title. *)
Definition link_text (T : pyval) : pyval :=
  if truthy T then T else PStr "View Article".

(** The rows of [df]: the rows of the loop as the frame holds them. *)
Definition stored (infer_string : bool) (data : list dict) : list dict :=
  rows (DataFrame_of infer_string data).

(** The cell the frame holds for the entry [x] of the column [k]. *)
Definition cell_of (infer_string : bool) (data : list dict) (k : string) (x : pyval)
  : pyval :=
  astype (infer_dtype infer_string (map (fun row => field row k) data)) x.

(** The row the frame holds for a row of the loop. *)
Definition stored_row (infer_string : bool) (data : list dict) (row : dict) : dict :=
  record (cell_of infer_string data "Title" (field row "Title"))
         (cell_of infer_string data "Description" (field row "Description"))
         (cell_of infer_string data "URL" (field row "URL"))
         (cell_of infer_string data "Sentiment" (field row "Sentiment"))
         (cell_of infer_string data "Compound" (field row "Compound"))
         (cell_of infer_string data "Source" (field row "Source"))
         (cell_of infer_string data "Published At" (field row "Published At")).

(** The [Published At] column of the rows, as line 89 reads it. *)
Definition published (data : list dict) : list pyval :=
  map (fun row => field row "Published At") data.

(** Time stamps in ascending order, the missing ones last. *)
Definition not_before (t u : datetime) : Prop :=
  match t, u with
  | Timestamp a, Timestamp b => (a <= b)%Z
  | NaT, Timestamp _ => False
  | _, NaT => True
  end.

Fixpoint chronological (ts : list datetime) : Prop :=
  match ts with
  | [] => True
  | t :: rest => Forall (not_before t) rest /\ chronological rest
  end.

(** The rows of [df] once line 89 has stored the parsed column. *)
Definition as_cells (row : dict) : Series cell :=
  map (fun kv => (fst kv, Obj (snd kv))) row.

Definition timed_rows (data : list dict) (times : list datetime) : list (Series cell) :=
  map (fun xt => set_in_row "Published At" (Time (snd xt)) (as_cells (fst xt)))
      (combine data times).

(** The order [sort_values("Published At")] sorts by. *)
Definition by_time (x y : Series cell) : bool :=
  datetime_leb (time_key "Published At" x) (time_key "Published At" y).

(** The frame of label counts drawn by the pie chart. *)
Definition sentiment_counts (data : list dict) : DataFrame pyval :=
  counts_frame (value_counts same_text (map (fun row => field row "Sentiment") data)).

(** What a run shows before the articles are drawn. *)
Definition header (api_key : string) : list event :=
  [ SetPageConfig "Financial News Sentiment" "wide";
    Title "📈 Financial News Sentiment Dashboard";
    SidebarTextInput "Enter your NewsAPI Key";
    HttpGet url (params api_key) ].

(** What the views show, for the rows [data] of the frame [df]. *)
Section Views.

Variable polarity_scores : string -> float.
Variable py_repr : pyval -> string.
Variable import_newspaper : result unit.
Variable download : string -> result string.
Variable parse : string -> result Article.

(** The row of the table shown for a row of [df]. *)
Definition styled_row (row : dict) : dict :=
  [ ("Title", PStr (make_clickable py_repr (field row "URL") (link_text (field row "Title"))));
    ("Sentiment", field row "Sentiment");
    ("Compound", field row "Compound");
    ("Source", field row "Source");
    ("Published At", field row "Published At") ].

Definition table_view (data : list dict) : DataFrame pyval :=
  mkFrame table_columns (map styled_row data).

(** The table and the two charts drawn before the trend. *)
Definition upper_views (data : list dict) : list event :=
  [ Subheader "📰 Articles & Sentiment";
    Write "Click on a title to read the full article.";
    WriteHtml (table_view data);
    Subheader "📊 Sentiment Distribution";
    AltairChart (chart (sentiment_counts data));
    Subheader "📉 Article Sentiment Scores";
    AltairChart (bar_chart (mkFrame record_keys data)) ].

(** What the [try] block obtains before it shows anything. *)
Definition extraction (custom_url : string) : result Article :=
  _ <- import_newspaper ;; page <- download custom_url ;; parse page.

(** What the [try] block shows for an extracted article. *)
Definition analysis_shown (article : Article) : list event :=
  [ Markdown ("**Title:** " ++ title article);
    Markdown ("**Sentiment:** `"
              ++ sentiment_label (polarity_scores (title article ++ " " ++ text article))
              ++ "` with score `"
              ++ py_str py_repr (PFloat (polarity_scores (title article ++ " " ++ text article)))
              ++ "`");
    Expander "View full article text" [Write (text article)] ].

End Views.

(** Sample collaborators and responses, for the concrete instances. *)
Module Sample.

Definition scorer (s : string) : float :=
  if s =? "Stocks rally strong gains" then 0.6%float
  else if s =? " Markets crash" then (-0.2)%float
  else if s =? "View Article Markets crash" then 0.9%float
  else if s =? "Fed holds rates The central bank kept rates unchanged." then 0.05%float
  else 0%float.

Definition art1 : pyval :=
  PDict [ ("source", PDict [("id", PNone); ("name", PStr "Wire")]);
          ("title", PStr "Stocks rally");
          ("description", PStr "strong gains");
          ("url", PStr "https://news.example/1");
          ("publishedAt", PStr "2024-01-02T00:00:00Z") ].

Definition art2_items : dict :=
  [ ("title", PNone);
    ("description", PStr "Markets crash");
    ("url", PStr "https://news.example/2");
    ("publishedAt", PStr "2024-01-01T00:00:00Z") ].

Definition art2 : pyval := PDict art2_items.

Definition art3_items : dict := [("url", PStr "https://news.example/3")].

Definition art3 : pyval := PDict art3_items.

Definition art_bad_date : pyval :=
  PDict [ ("title", PStr "Stocks rally");
          ("description", PStr "strong gains");
          ("publishedAt", PStr "yesterday") ].

Definition parse_datetime (col : list pyval) (v : pyval) : result datetime :=
  match v with
  | PStr s =>
      if s =? "2024-01-02T00:00:00Z" then Ok (Timestamp 1704153600000000000)
      else if s =? "2024-01-01T00:00:00Z" then Ok (Timestamp 1704067200000000000)
      else Raise (ValueError "Unknown datetime string format, unable to parse")
  | _ => Raise (TypeError "not convertible to datetime")
  end.

Definition respond (status : Z) (body : pyval) (u : string) (p : dict)
  : result Response :=
  Ok (mkResponse status (Ok body)).

Definition py_repr (v : pyval) : string :=
  match v with
  | PBool true => "True"
  | PBool false => "False"
  | PFloat f =>
      if PrimFloat.is_nan f then "nan"
      else if (f =? 0.05)%float then "0.05"
      else if (f =? 0.6)%float then "0.6"
      else if (f =? -0.2)%float then "-0.2"
      else "0.0"
  | _ => "<object>"
  end.


Definition page : string := "<html><title>Fed holds rates</title></html>".

Definition fetch_page (u : string) : result string := Ok page.

Definition article : Article :=
  mkArticle "Fed holds rates" "The central bank kept rates unchanged.".

Definition extract (p : string) : result Article := Ok article.

(** A date parser that rejects whatever it is given. *)
Definition reject_all (col : list pyval) (v : pyval) : result datetime :=
  Raise (ValueError "Unknown datetime string format, unable to parse").

Definition articles : list pyval := [art1; art2; art3].

(** The rows the loop builds for [articles]. *)
Definition row1 : dict :=
  record (PStr "Stocks rally") (PStr "strong gains") (PStr "https://news.example/1")
         (PStr "positive") (PFloat 0.6) (PStr "Wire") (PStr "2024-01-02T00:00:00Z").

Definition row2 : dict :=
  record PNone (PStr "Markets crash") (PStr "https://news.example/2")
         (PStr "negative") (PFloat (-0.2)) (PStr "") (PStr "2024-01-01T00:00:00Z").

Definition row3 : dict :=
  record PNone PNone (PStr "https://news.example/3")
         (PStr "neutral") (PFloat 0) (PStr "") PNone.

Definition rows : list dict := [row1; row2; row3].

Definition row_bad_date : dict :=
  record (PStr "Stocks rally") (PStr "strong gains") PNone
         (PStr "positive") (PFloat 0.6) (PStr "") (PStr "yesterday").

Definition times : list datetime :=
  [Timestamp 1704153600000000000; Timestamp 1704067200000000000; NaT].

Definition body (found : list pyval) : pyval :=
  PDict [ ("status", PStr "ok");
          ("totalResults", PInt (Z.of_nat (List.length found)));
          ("articles", PList found) ].

Definition body_without_articles : dict :=
  [("status", PStr "ok"); ("totalResults", PInt 0)].

End Sample.

(** *** Effects of a run *)

(** The query the script sends to NewsAPI (line 27). *)
Definition is_request (e : event) : bool :=
  match e with
  | HttpGet _ _ => true
  | _ => false
  end.

(** The heading of the custom URL section. *)
Definition is_url_heading (e : event) : bool :=
  match e with
  | Subheader s => s =? "🔍 Analyze Custom News URL"
  | _ => false
  end.

(** The calls of [st.error]. *)
Definition is_error (e : event) : bool :=
  match e with
  | Error _ => true
  | _ => false
  end.

(** A script none of whose effects passes the test [p]. *)
Definition silent (p : event -> bool) {A : Type} (m : script A) : Prop :=
  filter p (trace m) = [].

(** *** Articles the loop can and cannot handle *)

Definition is_text (v : pyval) : bool :=
  match v with
  | PStr _ => true
  | _ => false
  end.

Definition is_dict (v : pyval) : bool :=
  match v with
  | PDict _ => true
  | _ => false
  end.

(** [v or ""] is text: [v] is text, or it counts as false. *)
Definition usable_text (v : pyval) : bool := negb (truthy v) || is_text v.

(** What the frame holds for the entry [x] of a column of text and
    [None]: the text itself, and for [None] either [None] or, when the
    column got the string dtype, NaN. *)
Definition text_cell (infer_string : bool) (col : list pyval) (x : pyval) : pyval :=
  match x with
  | PNone => if infer_string && existsb is_text col then NaN else PNone
  | _ => x
  end.

(** The [k] entries of the articles of a response. *)
Definition entries (k : string) (articles : list pyval) : list pyval :=
  map (fun a => match a with
                | PDict items => field items k
                | _ => PNone
                end) articles.

(** A field that is absent or null. *)
Definition missing_field (items : dict) (k : string) : Prop :=
  lookup k items = None \/ lookup k items = Some PNone.

(** The articles on which the body of the loop runs to its end: objects
    whose title and description are text or count as false, and whose
    source, when the key is present, is an object. *)
Definition loop_accepts (a : pyval) : bool :=
  match a with
  | PDict items =>
      usable_text (field items "title")
      && usable_text (field items "description")
      && match lookup "source" items with
         | None => true
         | Some s => is_dict s
         end
  | _ => false
  end.

(** The exceptions the interpreter raises on a wrong operand. *)
Definition is_AttributeError_get (e : exn) : bool :=
  match e with
  | AttributeError _ attr => attr =? "get"
  | _ => false
  end.

Definition is_TypeError (e : exn) : bool :=
  match e with
  | TypeError _ => true
  | _ => false
  end.

(** *** Counting labels *)

(** The number of rows labelled [l]. *)
Definition labelled (l : string) (data : list dict) : nat :=
  List.length (filter (fun row => same_text (field row "Sentiment") (PStr l)) data).

(** The counts a list of pairs gives to the label [l], added up. *)
Definition total (l : string) (counts : list (pyval * nat)) : nat :=
  list_sum (map snd (filter (fun vn => same_text (fst vn) (PStr l)) counts)).

(** Sample inputs on which a run fails, or which carry markup. *)
Module Fault.

(** An article whose source is null. *)
Definition null_source_items : dict :=
  [ ("source", PNone);
    ("title", PStr "Stocks rally");
    ("description", PStr "strong gains");
    ("url", PStr "https://news.example/4") ].

(** An article whose title is a number. *)
Definition number_title : pyval :=
  PDict [ ("title", PInt 7); ("description", PStr "strong gains") ].

(** An article whose title holds markup. *)
Definition markup_items : dict :=
  [ ("title", PStr "<b>Stocks</b> rally");
    ("description", PStr "strong gains");
    ("url", PStr "https://news.example/5") ].

(** A transport that cannot connect. *)
Definition offline (u : string) (p : dict) : result Response :=
  Raise (LibraryError "HTTPSConnectionPool: Max retries exceeded").

(** A server that answers 200 with a page that is not JSON. *)
Definition not_json (u : string) (p : dict) : result Response :=
  Ok (mkResponse 200 (Raise (LibraryError "Expecting value: line 1 column 1 (char 0)"))).

End Fault.

(* ===================================================================== *)
(** ** Facts about the building blocks *)
(* ===================================================================== *)

(** *** The two thresholds *)

Lemma above_not_below (c : float) :
  (0.05 <? c)%float = true -> (c <? -0.05)%float = false.
Proof.
  rewrite !ltb_spec.
  replace (Prim2SF 0.05) with (S754_finite false 7205759403792794 (-57))
    by (vm_compute; reflexivity).
  replace (Prim2SF (-0.05)) with (S754_finite true 7205759403792794 (-57))
    by (vm_compute; reflexivity).
  unfold SFltb, SFcompare.
  destruct (Prim2SF c) as [s|s| |s m e]; try destruct s;
    cbv beta iota; congruence.
Qed.

Lemma sentiment_class_rule (c : float) : threshold_rule c (sentiment_class c).
Proof.
  unfold threshold_rule, sentiment_class.
  destruct (0.05 <? c)%float eqn:Hpos.
  - rewrite (above_not_below c Hpos).
    repeat split; intros; try discriminate; try reflexivity.
    destruct H; discriminate.
  - destruct (c <? -0.05)%float eqn:Hneg;
      repeat split; intros; try discriminate; try reflexivity.
    destruct H; discriminate.
Qed.

(** *** The script monad *)

Lemma seq_ret {A B : Type} (a : A) (k : A -> script B) : seq (ret a) k = k a.
Proof. unfold seq, ret. now destruct (k a). Qed.

Lemma seq_emit {B : Type} (e : event) (k : unit -> script B) :
  seq (emit e) k = (e :: trace (k tt), ending (k tt)).
Proof. unfold seq, emit. now destruct (k tt). Qed.

Lemma seq_done {A B : Type} (t : list event) (a : A) (k : A -> script B) :
  seq (t, Done a) k = ((t ++ trace (k a))%list, ending (k a)).
Proof. unfold seq. now destruct (k a). Qed.

(** *** Sequences of fallible steps *)

Lemma mapM_Forall2 {A B : Type} (f : A -> result B) (l : list A) (l' : list B) :
  mapM f l = Ok l' <-> Forall2 (fun a b => f a = Ok b) l l'.
Proof.
  revert l'. induction l as [|a l IH]; intros l'; simpl.
  - split; intros H.
    + injection H as <-. constructor.
    + inversion H. reflexivity.
  - split; intros H.
    + destruct (f a) as [b|e] eqn:Hfa; simpl in H; [|discriminate].
      destruct (mapM f l) as [bs|e] eqn:Hl; simpl in H; [|discriminate].
      injection H as <-. constructor; [assumption|]. now apply IH.
    + inversion H as [|a0 b l0 bs Hfa Hrest]; subst.
      rewrite Hfa. simpl. apply IH in Hrest. rewrite Hrest. reflexivity.
Qed.

Lemma mapM_map {A B : Type} (f : A -> result B) (g : A -> B) (l : list A) :
  Forall (fun a => f a = Ok (g a)) l -> mapM f l = Ok (map g l).
Proof.
  induction 1 as [|a l Ha _ IH]; simpl; [reflexivity|].
  rewrite Ha, IH. reflexivity.
Qed.

Lemma mapM_compose {A B D : Type} (f : B -> result D) (g : A -> B) (l : list A) :
  mapM f (map g l) = mapM (fun a => f (g a)) l.
Proof. induction l as [|a l IH]; cbn [map mapM]; [reflexivity|now rewrite IH]. Qed.

Lemma mapM_raises {A B : Type} (f : A -> result B) (l : list A) :
  Exists (fun a => exists e, f a = Raise e) l ->
  exists a e, In a l /\ f a = Raise e /\ mapM f l = Raise e.
Proof.
  induction l as [|a l IH]; intros H; [inversion H|].
  simpl. destruct (f a) as [b|e] eqn:Hfa.
  - assert (Hl : Exists (fun a => exists e, f a = Raise e) l).
    { inversion H as [? ? [e He]|]; subst; [congruence|assumption]. }
    destruct (IH Hl) as (a' & e & Hin & Hfa' & Hm).
    exists a', e. rewrite Hm. auto.
  - exists a, e. auto.
Qed.

Lemma mapM_length {A B : Type} (f : A -> result B) (l : list A) (l' : list B) :
  mapM f l = Ok l' -> List.length l' = List.length l.
Proof.
  rewrite mapM_Forall2. induction 1; cbn [List.length]; congruence.
Qed.

Lemma mapM_total {A B : Type} (f : A -> result B) (l : list A) :
  Forall (fun a => exists b, f a = Ok b) l -> exists l', mapM f l = Ok l'.
Proof.
  induction 1 as [|a l [b Hb] _ [l' IH]]; [now exists []|].
  exists (b :: l'). cbn [mapM]. now rewrite Hb, IH.
Qed.

(** *** Lists and rows *)

Lemma Forall2_nth_error {A B : Type} (R : A -> B -> Prop) (l : list A) (l' : list B)
      (i : nat) (a : A) :
  Forall2 R l l' -> nth_error l i = Some a ->
  exists b, nth_error l' i = Some b /\ R a b.
Proof.
  intros H. revert i. induction H as [|x y l l' Hxy _ IH]; intros [|i] Hi;
    cbn [nth_error] in *; try discriminate.
  - injection Hi as <-. eauto.
  - now apply IH.
Qed.

Lemma Forall2_map_left {A B D : Type} (R : B -> D -> Prop) (f : A -> B)
      (l : list A) (l' : list D) :
  Forall2 R (map f l) l' -> Forall2 (fun a d => R (f a) d) l l'.
Proof.
  revert l'. induction l as [|a l IH]; intros l' H; inversion H; subst;
    constructor; auto.
Qed.


Lemma map_combine_map {A B D : Type} (g : A -> B) (h : A * B -> D) (l : list A) :
  map h (combine l (map g l)) = map (fun a => h (a, g a)) l.
Proof. induction l; simpl; congruence. Qed.

Lemma combine_map_map {A B A' B' : Type} (f : A -> A') (g : B -> B')
      (l : list A) (l' : list B) :
  combine (map f l) (map g l') = map (fun ab => (f (fst ab), g (snd ab))) (combine l l').
Proof.
  revert l'. induction l as [|a l IH]; intros [|b l']; cbn [map combine fst snd];
    try reflexivity. now rewrite IH.
Qed.

Lemma lookup_as_cells (k : string) (row : dict) :
  lookup k (as_cells row) = option_map Obj (lookup k row).
Proof.
  induction row as [|[k' v] row IH]; cbn [as_cells map lookup fst snd option_map];
    [reflexivity|].
  destruct (k' =? k); [reflexivity|exact IH].
Qed.

Lemma lookup_set_in_row_other {C : Type} (k c : string) (v : C) (x : Series C) :
  k <> c -> lookup k (set_in_row c v x) = lookup k x.
Proof.
  intros Hkc. induction x as [|[k' w] x IH]; cbn [set_in_row lookup].
  - apply String.eqb_neq in Hkc. rewrite String.eqb_sym in Hkc. now rewrite Hkc.
  - destruct (k' =? c) eqn:Hc; cbn [lookup].
    + apply String.eqb_eq in Hc. subst k'.
      apply String.eqb_neq in Hkc. rewrite String.eqb_sym in Hkc. now rewrite Hkc.
    + destruct (k' =? k); [reflexivity|exact IH].
Qed.

Lemma lookup_set_in_row_same {C : Type} (c : string) (v : C) (x : Series C) :
  lookup c (set_in_row c v x) = Some v.
Proof.
  induction x as [|[k' w] x IH]; cbn [set_in_row lookup].
  - now rewrite String.eqb_refl.
  - destruct (k' =? c) eqn:Hc; cbn [lookup]; rewrite Hc; [reflexivity|exact IH].
Qed.

Lemma timed_rows_other (k : string) (data : list dict) (times : list datetime) :
  k <> "Published At" -> List.length times = List.length data ->
  map (lookup k) (timed_rows data times)
  = map (fun row => option_map Obj (lookup k row)) data.
Proof.
  intros Hk. unfold timed_rows. revert times.
  induction data as [|row data IH]; intros [|t times] Hlen;
    cbn [combine map fst snd] in *; try reflexivity; try discriminate.
  rewrite lookup_set_in_row_other, lookup_as_cells by assumption.
  f_equal. apply IH. now injection Hlen.
Qed.

Lemma timed_rows_published (data : list dict) (times : list datetime) :
  List.length times = List.length data ->
  map (lookup "Published At") (timed_rows data times)
  = map (fun t => Some (Time t)) times.
Proof.
  unfold timed_rows. revert times.
  induction data as [|row data IH]; intros [|t times] Hlen;
    cbn [combine map fst snd] in *; try reflexivity; try discriminate.
  rewrite lookup_set_in_row_same. f_equal. apply IH. now injection Hlen.
Qed.

(** *** Sorting *)

Lemma insert_by_perm {A : Type} (leb : A -> A -> bool) (a : A) (l : list A) :
  Permutation (insert_by leb a l) (a :: l).
Proof.
  induction l as [|b l IH]; cbn [insert_by]; [reflexivity|].
  destruct (leb a b); [reflexivity|].
  rewrite IH. apply perm_swap.
Qed.

Lemma sort_by_perm {A : Type} (leb : A -> A -> bool) (l : list A) :
  Permutation (sort_by leb l) l.
Proof.
  induction l as [|a l IH]; cbn [sort_by]; [reflexivity|].
  rewrite insert_by_perm. now constructor.
Qed.

Section Sorted.
Context {A : Type} (leb : A -> A -> bool).
Hypothesis leb_total : forall a b, leb a b = false -> leb b a = true.

Lemma insert_by_sorted (a : A) (l : list A) :
  Sorted (fun x y => leb x y = true) l ->
  Sorted (fun x y => leb x y = true) (insert_by leb a l).
Proof.
  induction 1 as [|b l Hl IH Hb]; cbn [insert_by].
  - repeat constructor.
  - destruct (leb a b) eqn:Hab.
    + constructor; [now constructor|now constructor].
    + constructor; [exact IH|].
      destruct l as [|c l]; cbn [insert_by].
      * constructor. now apply leb_total.
      * destruct (leb a c); constructor; [now apply leb_total|].
        now inversion Hb.
Qed.

Lemma sort_by_sorted (l : list A) :
  Sorted (fun x y => leb x y = true) (sort_by leb l).
Proof.
  induction l as [|a l IH]; cbn [sort_by]; [constructor|].
  now apply insert_by_sorted.
Qed.
End Sorted.

Lemma datetime_leb_total (a b : datetime) :
  datetime_leb a b = false -> datetime_leb b a = true.
Proof.
  destruct a as [x|], b as [y|]; cbn [datetime_leb]; try congruence.
  rewrite Z.leb_gt, Z.leb_le. lia.
Qed.

Lemma datetime_leb_trans (a b c : datetime) :
  datetime_leb a b = true -> datetime_leb b c = true -> datetime_leb a c = true.
Proof.
  destruct a as [x|], b as [y|], c as [z|]; cbn [datetime_leb]; try congruence.
  rewrite !Z.leb_le. lia.
Qed.

Lemma Sorted_weaken {A : Type} (R R' : A -> A -> Prop) (l : list A) :
  (forall a b, R a b -> R' a b) -> Sorted R l -> Sorted R' l.
Proof.
  intros HR. induction 1 as [|a l _ IH Hhd]; constructor; [exact IH|].
  destruct Hhd; constructor. now apply HR.
Qed.

Lemma strongly_sorted_after {A : Type} (R : A -> A -> Prop) (l1 : list A) (x : A)
      (l2 : list A) :
  StronglySorted R (l1 ++ x :: l2) -> Forall (R x) l2.
Proof.
  induction l1 as [|a l1 IH]; cbn [app]; intros H.
  - now inversion H.
  - inversion H; subst. now apply IH.
Qed.

Lemma by_time_trans (x y z : Series cell) :
  by_time x y = true -> by_time y z = true -> by_time x z = true.
Proof. unfold by_time. apply datetime_leb_trans. Qed.

Lemma datetime_leb_not_before (a b : datetime) :
  datetime_leb a b = true -> not_before a b.
Proof.
  destruct a as [x|], b as [y|]; cbn [datetime_leb not_before]; try easy.
  apply Z.leb_le.
Qed.

Lemma sorted_chronological {A : Type} (f : A -> datetime) (l : list A) :
  StronglySorted (fun x y => datetime_leb (f x) (f y) = true) l ->
  chronological (map f l).
Proof.
  induction 1 as [|x l _ IH Hx]; cbn [map chronological]; [exact I|].
  split; [|exact IH]. apply Forall_map.
  eapply Forall_impl; [|exact Hx]. intros y. apply datetime_leb_not_before.
Qed.

Lemma sort_by_time_chronological (l : list (Series cell)) :
  chronological (map (time_key "Published At") (sort_by by_time l)).
Proof.
  apply sorted_chronological, Sorted_StronglySorted.
  - intros a b c. apply by_time_trans.
  - apply sort_by_sorted. intros a b. apply datetime_leb_total.
Qed.

(** *** Frames built from the rows of the loop *)

Lemma add_record_keys (seen : list string) T D U S C So P :
  seen = [] \/ seen = record_keys ->
  add_keys seen (map fst (record T D U S C So P)) = record_keys.
Proof. intros [-> | ->]; reflexivity. Qed.

Lemma union_keys_shaped (data : list dict) :
  data <> [] -> Forall shaped data -> union_keys data = record_keys.
Proof.
  assert (Hkeep : forall l, Forall shaped l ->
            fold_left (fun seen d => add_keys seen (map fst d)) l record_keys
            = record_keys).
  { induction 1 as [|row l (T & D & U & S & C & So & P & ->) _ IH];
      [reflexivity|].
    cbn [fold_left]. rewrite add_record_keys by now right. exact IH. }
  intros Hne Hall.
  destruct Hall as [|row l (T & D & U & S & C & So & P & ->) Hl]; [congruence|].
  unfold union_keys. cbn [fold_left].
  rewrite add_record_keys by now left. now apply Hkeep.
Qed.

Lemma fill_shaped (row : dict) : shaped row -> fill record_keys row = row.
Proof. intros (T & D & U & S & C & So & P & ->). reflexivity. Qed.

Lemma fill_all_shaped (data : list dict) :
  Forall shaped data -> map (fill record_keys) data = data.
Proof.
  induction 1 as [|row l Hrow _ IH]; [reflexivity|].
  cbn [map]. now rewrite (fill_shaped row Hrow), IH.
Qed.

Lemma column_shaped (data : list dict) (c : string) :
  Forall shaped data -> In c record_keys ->
  column c data = map (fun row => field row c) data.
Proof.
  intros Hall Hin. unfold column. apply map_ext_in. intros row Hrow.
  rewrite Forall_forall in Hall.
  destruct (Hall row Hrow) as (T & D & U & S & C & So & P & ->).
  repeat (destruct Hin as [<- | Hin]; [reflexivity|]). destruct Hin.
Qed.

(** *** The dtypes of the columns *)

Lemma astype_text (d : dtype) (s : string) : astype d (PStr s) = PStr s.
Proof. now destruct d. Qed.

Lemma astype_float (d : dtype) (f : float) : astype d (PFloat f) = PFloat f.
Proof. now destruct d. Qed.

Lemma astype_None_missing (d : dtype) : is_missing (astype d PNone) = true.
Proof. now destruct d. Qed.

Lemma infer_dtype_text (infer_string : bool) (col : list pyval) :
  forallb text_or_null col = true ->
  infer_dtype infer_string col
  = if infer_string && existsb is_text col then dt_str else dt_object.
Proof.
  intros Hcol. unfold infer_dtype.
  assert (Hnum : existsb (fun v => match v with
                                   | PInt _ | PFloat _ => true
                                   | _ => false
                                   end) col = false).
  { induction col as [|x col IH]; [reflexivity|].
    cbn [forallb] in Hcol. apply andb_prop in Hcol as [Hx Hcol].
    cbn [existsb]. rewrite (IH Hcol). destruct x; try discriminate; reflexivity. }
  assert (Hstr : forallb string_entry col = true).
  { clear Hnum. induction col as [|x col IH]; [reflexivity|].
    cbn [forallb] in Hcol |- *. apply andb_prop in Hcol as [Hx Hcol].
    rewrite (IH Hcol). destruct x; try discriminate; reflexivity. }
  rewrite Hnum, Hstr, andb_false_r, andb_true_r. reflexivity.
Qed.

Lemma astype_text_cell (infer_string : bool) (col : list pyval) (x : pyval) :
  forallb text_or_null col = true -> text_or_null x = true ->
  astype (infer_dtype infer_string col) x = text_cell infer_string col x.
Proof.
  intros Hcol Hx. rewrite (infer_dtype_text _ _ Hcol).
  destruct x; try discriminate; cbn [text_cell].
  - now destruct (infer_string && existsb is_text col).
  - apply astype_text.
Qed.

Lemma stored_shaped (infer_string : bool) (data : list dict) :
  data <> [] -> Forall shaped data ->
  stored infer_string data = map (stored_row infer_string data) data.
Proof.
  intros Hne Hall. unfold stored, DataFrame_of.
  rewrite (union_keys_shaped data Hne Hall). cbn [rows].
  rewrite (fill_all_shaped data Hall).
  apply map_ext_in. intros row Hrow.
  rewrite Forall_forall in Hall.
  destruct (Hall row Hrow) as (T & D & U & S & C & So & P & ->).
  rewrite <- Forall_forall in Hall.
  unfold stored_row, cell_of. cbn [record map fst snd].
  rewrite !(column_shaped data) by (try assumption; cbn; tauto).
  reflexivity.
Qed.

Lemma DataFrame_of_shaped (infer_string : bool) (data : list dict) :
  data <> [] -> Forall shaped data ->
  DataFrame_of infer_string data = mkFrame record_keys (stored infer_string data).
Proof.
  intros Hne Hall. unfold stored, DataFrame_of.
  now rewrite (union_keys_shaped data Hne Hall).
Qed.

Lemma stored_length (infer_string : bool) (data : list dict) :
  List.length (stored infer_string data) = List.length data.
Proof. unfold stored, DataFrame_of. cbn [rows]. now rewrite !length_map. Qed.

Lemma stored_nonempty (infer_string : bool) (data : list dict) :
  data <> [] -> stored infer_string data <> [].
Proof.
  intros Hne Hnil. apply Hne, length_zero_iff_nil.
  now rewrite <- (stored_length infer_string), Hnil.
Qed.

Lemma stored_all_shaped (infer_string : bool) (data : list dict) :
  data <> [] -> Forall shaped data -> Forall shaped (stored infer_string data).
Proof.
  intros Hne Hall. rewrite (stored_shaped _ _ Hne Hall).
  apply Forall_forall. intros row Hrow. apply in_map_iff in Hrow as (r & <- & _).
  unfold stored_row. now eexists _, _, _, _, _, _, _.
Qed.

Lemma nth_error_stored (infer_string : bool) (data : list dict) (i : nat) (row : dict) :
  data <> [] -> Forall shaped data ->
  nth_error data i = Some row ->
  nth_error (stored infer_string data) i = Some (stored_row infer_string data row).
Proof.
  intros Hne Hall Hi. rewrite (stored_shaped _ _ Hne Hall), nth_error_map, Hi.
  reflexivity.
Qed.

Lemma lookup_shaped (row : dict) (c : string) :
  shaped row -> In c record_keys -> lookup c row = Some (field row c).
Proof.
  intros (T & D & U & S & C & So & P & ->) Hin.
  repeat (destruct Hin as [<- | Hin]; [reflexivity|]). destruct Hin.
Qed.

Lemma series_get_shaped (row : dict) (c : string) :
  shaped row -> In c record_keys -> series_get row c = Ok (field row c).
Proof.
  intros (T & D & U & S & C & So & P & ->) Hin.
  repeat (destruct Hin as [<- | Hin]; [reflexivity|]). destruct Hin.
Qed.

Lemma getitem_shaped (data : list dict) (c : string) :
  Forall shaped data -> In c record_keys ->
  getitem (mkFrame record_keys data) c = Ok (map (fun row => field row c) data).
Proof.
  intros Hall Hin. unfold getitem.
  replace (has_column _ c) with true.
  2:{ repeat (destruct Hin as [<- | Hin]; [reflexivity|]). destruct Hin. }
  cbn [rows]. apply mapM_map.
  eapply Forall_impl; [|exact Hall]. intros row Hrow. now apply series_get_shaped.
Qed.

Lemma apply_rows_nonempty (df : DataFrame pyval) (f : Series pyval -> result pyval) :
  rows df <> [] -> columns df <> [] ->
  apply_rows df f = (vals <- mapM f (rows df) ;; Ok (AppliedSeries vals)).
Proof.
  unfold apply_rows. destruct (rows df); [congruence|].
  destruct (columns df); [congruence|]. reflexivity.
Qed.

(** *** The blocks of the script *)

Section Facts.

Variable infer_string : bool.
Variable polarity_scores : string -> float.
Variable requests_get : string -> dict -> result Response.
Variable parse_datetime : list pyval -> pyval -> result datetime.
Variable py_repr : pyval -> string.
Variable import_newspaper : result unit.
Variable download : string -> result string.
Variable parse : string -> result Article.

Lemma truthy_text (s : string) : truthy (PStr s) = true <-> s <> "".
Proof.
  simpl. rewrite negb_true_iff. apply String.eqb_neq.
Qed.

Lemma py_get_field (items : dict) (k : string) :
  py_get (PDict items) k PNone = Ok (field items k).
Proof. unfold py_get, field. now destruct (lookup k items). Qed.

Lemma or_empty_text (v : pyval) :
  text_or_null v = true -> py_or v (PStr "") = PStr (text_of v).
Proof.
  destruct v; try discriminate; intros _; [reflexivity|].
  unfold py_or. simpl. destruct s; reflexivity.
Qed.

Lemma build_record_newsapi (items : dict) :
  newsapi_article (PDict items) = true ->
  build_record polarity_scores (PDict items) =
    Ok (record (field items "title") (field items "description") (field items "url")
               (PStr (sentiment_class (polarity_scores (content_of items))))
               (PFloat (polarity_scores (content_of items)))
               (source_name items) (field items "publishedAt")).
Proof.
  unfold newsapi_article. rewrite !andb_true_iff.
  intros ((((Ht & Hd) & Hu) & Hp) & Hs).
  unfold build_record.
  rewrite py_get_field; cbn [bind].
  rewrite (or_empty_text _ Ht); cbn [py_add_text bind].
  rewrite py_get_field; cbn [bind].
  rewrite (or_empty_text _ Hd); cbn [py_text_add bind].
  repeat (rewrite py_get_field; cbn [bind]).
  unfold source_name, content_of, py_get at 1.
  destruct (lookup "source" items) as [[]|]; try discriminate; cbn [bind].
  - unfold py_get. destruct (lookup "name" items0); reflexivity.
  - reflexivity.
Qed.

Lemma build_record_shape (a : pyval) (row : dict) :
  build_record polarity_scores a = Ok row ->
  exists T D U c So P,
    row = record T D U (PStr (sentiment_class c)) (PFloat c) So P.
Proof.
  unfold build_record. intros H.
  repeat match type of H with
  | bind ?r _ = Ok _ => destruct r eqn:?; simpl in H; [|discriminate]
  end.
  injection H as <-. now eexists _, _, _, _, _, _.
Qed.

Lemma transform_mapM (articles : list pyval) (data : list dict) :
  transform polarity_scores articles data =
    (rows <- mapM (build_record polarity_scores) articles ;; Ok (data ++ rows)%list).
Proof.
  revert data. induction articles as [|a l IH]; intros data; simpl.
  - now rewrite app_nil_r.
  - destruct (build_record polarity_scores a) as [row|e]; simpl; [|reflexivity].
    rewrite IH. destruct (mapM _ l); simpl; [|reflexivity].
    now rewrite <- app_assoc.
Qed.

Lemma transform_Forall2 (articles : list pyval) (data : list dict) :
  transform polarity_scores articles [] = Ok data <->
  Forall2 (fun a row => build_record polarity_scores a = Ok row) articles data.
Proof.
  rewrite transform_mapM, <- mapM_Forall2.
  destruct (mapM _ articles); simpl; split; congruence.
Qed.

Lemma transform_shaped (articles : list pyval) (data : list dict) :
  transform polarity_scores articles [] = Ok data -> Forall shaped data.
Proof.
  rewrite transform_Forall2. induction 1 as [|a row l l' Ha _ IH]; constructor.
  - destruct (build_record_shape a row Ha) as (T & D & U & c & So & P & ->).
    now eexists _, _, _, _, _, _, _.
  - exact IH.
Qed.

Lemma transform_length (articles : list pyval) (data : list dict) :
  transform polarity_scores articles [] = Ok data ->
  List.length data = List.length articles.
Proof.
  rewrite transform_Forall2. induction 1; cbn [List.length]; congruence.
Qed.

Lemma transform_newsapi (articles : list pyval) :
  forallb newsapi_article articles = true ->
  exists data, transform polarity_scores articles [] = Ok data.
Proof.
  intros Hwf.
  assert (H : exists data, mapM (build_record polarity_scores) articles = Ok data).
  { induction articles as [|a l IH]; [now exists []|].
    cbn [forallb] in Hwf. apply andb_prop in Hwf as [Ha Hl].
    destruct (IH Hl) as [rows Hrows]. destruct a; try discriminate.
    cbn [mapM]. rewrite (build_record_newsapi _ Ha), Hrows. cbn [bind]. eauto. }
  destruct H as [data H]. exists data. rewrite transform_mapM, H. reflexivity.
Qed.

Lemma to_datetime_missing (col : list pyval) (times : list datetime) :
  to_datetime parse_datetime col = Ok times ->
  Forall2 (fun v t => is_missing v = true -> t = NaT) col times.
Proof.
  unfold to_datetime. rewrite mapM_Forall2.
  generalize col at 1. intros whole. induction 1 as [|v t l l' Hv _ IH]; constructor.
  - intros Hm. rewrite Hm in Hv. congruence.
  - exact IH.
Qed.

(** The rows of the loop hold a label and a score, which no dtype
    changes. *)
Lemma transform_rows (articles : list pyval) (data : list dict) :
  transform polarity_scores articles [] = Ok data ->
  Forall (fun row => exists T D U c So P,
            row = record T D U (PStr (sentiment_class c)) (PFloat c) So P) data.
Proof.
  rewrite transform_Forall2. induction 1 as [|a row l l' Ha _ IH]; constructor.
  - exact (build_record_shape a row Ha).
  - exact IH.
Qed.

Lemma stored_labels (articles : list pyval) (data : list dict) :
  transform polarity_scores articles [] = Ok data ->
  map (fun row => field row "Sentiment") (stored infer_string data)
  = map (fun row => field row "Sentiment") data.
Proof.
  intros Hdata. destruct data as [|row0 data0] eqn:Heq; [reflexivity|].
  rewrite <- Heq in *.
  assert (Hne : data <> []) by (rewrite Heq; discriminate).
  rewrite (stored_shaped _ _ Hne (transform_shaped _ _ Hdata)), map_map.
  apply map_ext_in. intros row Hrow.
  pose proof (transform_rows _ _ Hdata) as Hrows. rewrite Forall_forall in Hrows.
  destruct (Hrows row Hrow) as (T & D & U & c & So & P & ->).
  apply astype_text.
Qed.

Lemma stored_scores (articles : list pyval) (data : list dict) :
  transform polarity_scores articles [] = Ok data ->
  map (lookup "Compound") (stored infer_string data) = map (lookup "Compound") data.
Proof.
  intros Hdata. destruct data as [|row0 data0] eqn:Heq; [reflexivity|].
  rewrite <- Heq in *.
  assert (Hne : data <> []) by (rewrite Heq; discriminate).
  rewrite (stored_shaped _ _ Hne (transform_shaped _ _ Hdata)), map_map.
  apply map_ext_in. intros row Hrow.
  pose proof (transform_rows _ _ Hdata) as Hrows. rewrite Forall_forall in Hrows.
  destruct (Hrows row Hrow) as (T & D & U & c & So & P & ->).
  unfold stored_row. cbn [record lookup String.eqb Ascii.eqb Bool.eqb].
  f_equal. apply astype_float.
Qed.

Lemma sentiment_counts_stored (articles : list pyval) (data : list dict) :
  transform polarity_scores articles [] = Ok data ->
  sentiment_counts (stored infer_string data) = sentiment_counts data.
Proof.
  intros Hdata. unfold sentiment_counts. now rewrite (stored_labels _ _ Hdata).
Qed.

(** The rows of NewsAPI articles, and the cells the frame holds for
    their text fields. *)
Lemma transform_newsapi_rows (articles : list pyval) (data : list dict) :
  forallb newsapi_article articles = true ->
  transform polarity_scores articles [] = Ok data ->
  Forall2 (fun a row => exists items,
             a = PDict items /\ newsapi_article a = true /\
             row = record (field items "title") (field items "description")
                          (field items "url")
                          (PStr (sentiment_class (polarity_scores (content_of items))))
                          (PFloat (polarity_scores (content_of items)))
                          (source_name items) (field items "publishedAt"))
          articles data.
Proof.
  intros Hwf. rewrite transform_Forall2. intros Hrows.
  induction Hrows as [|a row l l' Ha _ IH]; constructor.
  - cbn [forallb] in Hwf. apply andb_prop in Hwf as [Hwa _].
    destruct a; try discriminate. exists items.
    rewrite (build_record_newsapi _ Hwa) in Ha. injection Ha as <-. auto.
  - apply IH. cbn [forallb] in Hwf. now apply andb_prop in Hwf as [_ Hl].
Qed.

Lemma newsapi_entries (k : string) (articles : list pyval) :
  In k ["title"; "description"; "url"; "publishedAt"] ->
  forallb newsapi_article articles = true ->
  forallb text_or_null (entries k articles) = true.
Proof.
  intros Hk Hwf. induction articles as [|a l IH]; [reflexivity|].
  cbn [forallb] in Hwf. apply andb_prop in Hwf as [Ha Hl].
  cbn [entries map forallb]. fold (entries k l). rewrite (IH Hl), andb_true_r.
  destruct a; try discriminate. unfold newsapi_article in Ha.
  rewrite !andb_true_iff in Ha. destruct Ha as ((((Ht & Hd) & Hu) & Hp) & _).
  repeat (destruct Hk as [<- | Hk]; [assumption|]). destruct Hk.
Qed.

Lemma newsapi_column (k K : string) (articles : list pyval) (data : list dict) :
  In (k, K) [("title", "Title"); ("description", "Description"); ("url", "URL");
             ("publishedAt", "Published At")] ->
  forallb newsapi_article articles = true ->
  transform polarity_scores articles [] = Ok data ->
  map (fun row => field row K) data = entries k articles.
Proof.
  intros HkK Hwf Hdata.
  pose proof (transform_newsapi_rows _ _ Hwf Hdata) as Hrows.
  clear Hwf Hdata.
  induction Hrows as [|a row l l' (items & -> & _ & ->) _ IH]; [reflexivity|].
  cbn [map entries]. fold (entries k l). rewrite IH. f_equal.
  repeat (destruct HkK as [Heq | HkK]; [injection Heq as <- <-; reflexivity|]).
  destruct HkK.
Qed.

Lemma stored_newsapi_column (k K : string) (articles : list pyval) (data : list dict) :
  In (k, K) [("title", "Title"); ("description", "Description"); ("url", "URL");
             ("publishedAt", "Published At")] ->
  forallb newsapi_article articles = true ->
  transform polarity_scores articles [] = Ok data ->
  map (fun row => field row K) (stored infer_string data)
  = map (text_cell infer_string (entries k articles)) (entries k articles).
Proof.
  intros HkK Hwf Hdata.
  destruct data as [|row0 data0] eqn:Heq.
  { apply transform_length in Hdata. destruct articles; [reflexivity|discriminate]. }
  rewrite <- Heq in *.
  assert (Hne : data <> []) by (rewrite Heq; discriminate).
  pose proof (transform_shaped _ _ Hdata) as Hshaped.
  pose proof (newsapi_column k K articles data HkK Hwf Hdata) as Hraw.
  assert (Hk : In k ["title"; "description"; "url"; "publishedAt"]).
  { repeat (destruct HkK as [Hkk | HkK];
            [injection Hkk as <- <-; cbn; auto 6|]). destruct HkK. }
  pose proof (newsapi_entries k articles Hk Hwf) as Htext.
  rewrite (stored_shaped _ _ Hne Hshaped), map_map.
  transitivity (map (astype (infer_dtype infer_string (entries k articles)))
                    (entries k articles)).
  - rewrite <- Hraw at 2. rewrite map_map. apply map_ext. intros row.
    rewrite <- Hraw.
    repeat (destruct HkK as [Hkk | HkK]; [injection Hkk as <- <-; reflexivity|]).
    destruct HkK.
  - apply map_ext_in. intros x Hx. apply astype_text_cell; [exact Htext|].
    rewrite forallb_forall in Htext. now apply Htext.
Qed.

Lemma stored_newsapi_cell (k K : string) (articles : list pyval) (data : list dict)
      (i : nat) (items : dict) :
  In (k, K) [("title", "Title"); ("description", "Description"); ("url", "URL");
             ("publishedAt", "Published At")] ->
  forallb newsapi_article articles = true ->
  transform polarity_scores articles [] = Ok data ->
  nth_error articles i = Some (PDict items) ->
  exists kept,
    nth_error (stored infer_string data) i = Some kept /\
    field kept K = text_cell infer_string (entries k articles) (field items k).
Proof.
  intros HkK Hwf Hdata Hi.
  pose proof (transform_newsapi_rows _ _ Hwf Hdata) as Hrows.
  destruct (Forall2_nth_error _ _ _ _ _ Hrows Hi) as (row & Hrow & its & Hits & Hwa & ->).
  injection Hits as <-.
  assert (Hne : data <> []) by (intros ->; destruct i; discriminate).
  pose proof (transform_shaped _ _ Hdata) as Hall.
  eexists. split; [exact (nth_error_stored infer_string _ _ _ Hne Hall Hrow)|].
  assert (Hk : In k ["title"; "description"; "url"; "publishedAt"]).
  { repeat (destruct HkK as [Heq | HkK];
            [injection Heq as <- <-; cbn; auto 6|]). destruct HkK. }
  pose proof (newsapi_entries k articles Hk Hwf) as Hcol.
  assert (Hx : text_or_null (field items k) = true).
  { rewrite forallb_forall in Hcol. apply Hcol.
    unfold entries. apply in_map_iff. exists (PDict items). split; [reflexivity|].
    eapply nth_error_In; eassumption. }
  rewrite <- (astype_text_cell infer_string _ _ Hcol Hx).
  rewrite <- (newsapi_column k K articles data HkK Hwf Hdata).
  repeat (destruct HkK as [Heq | HkK]; [injection Heq as <- <-; reflexivity|]).
  destruct HkK.
Qed.

Lemma clickable_title_shaped (row : dict) :
  shaped row ->
  clickable_title py_repr row =
    Ok (PStr (make_clickable py_repr (field row "URL") (link_text (field row "Title")))).
Proof.
  intros (T & D & U & S & C & So & P & ->).
  unfold clickable_title, link_text, field, series_get, record.
  cbn [lookup String.eqb Ascii.eqb Bool.eqb bind].
  destruct (truthy T); reflexivity.
Qed.

Lemma select_styled (row : dict) :
  shaped row ->
  mapM (fun c => v <- series_get
                      (set_in_row "Title"
                         (PStr (make_clickable py_repr (field row "URL")
                                               (link_text (field row "Title"))))
                         row) c ;;
                 Ok (c, v)) table_columns
  = Ok (styled_row py_repr row).
Proof. intros (T & D & U & S & C & So & P & ->). reflexivity. Qed.

Lemma show_table_shaped (data : list dict) :
  data <> [] -> Forall shaped data ->
  show_table py_repr (mkFrame record_keys data) =
    ([ Subheader "📰 Articles & Sentiment";
       Write "Click on a title to read the full article.";
       WriteHtml (mkFrame table_columns (map (styled_row py_repr) data)) ],
     Done tt).
Proof.
  intros Hne Hall. unfold show_table.
  rewrite apply_rows_nonempty by (try assumption; discriminate).
  cbn [rows].
  rewrite (mapM_map (clickable_title py_repr)
             (fun row => PStr (make_clickable py_repr (field row "URL")
                                              (link_text (field row "Title"))))).
  2:{ eapply Forall_impl; [|exact Hall]. exact clickable_title_shaped. }
  cbn [bind lift]. rewrite seq_emit, seq_ret.
  cbn [setitem_applied]. unfold setitem.
  cbn [rows columns]. rewrite length_map, Nat.eqb_refl.
  rewrite map_combine_map. cbn [fst snd lift].
  rewrite seq_ret, seq_emit. unfold select.
  replace (filter _ table_columns) with (@nil string) by reflexivity.
  cbn [rows]. rewrite mapM_compose.
  rewrite (mapM_map _ (styled_row py_repr)).
  2:{ eapply Forall_impl; [|exact Hall]. exact select_styled. }
  reflexivity.
Qed.

Lemma show_distribution_shaped (data : list dict) :
  Forall shaped data ->
  show_distribution (mkFrame record_keys data) =
    ([Subheader "📊 Sentiment Distribution"; AltairChart (chart (sentiment_counts data))],
     Done tt).
Proof.
  intros Hall. unfold show_distribution.
  rewrite getitem_shaped by (try assumption; cbn; tauto).
  reflexivity.
Qed.

Lemma show_trend_shaped (data : list dict) :
  Forall shaped data ->
  show_trend parse_datetime (mkFrame record_keys data) =
    match to_datetime parse_datetime (published data) with
    | Ok times =>
        ([ Subheader "📅 Sentiment Over Time";
           AltairChart (line_chart
             (mkFrame record_keys (sort_by by_time (timed_rows data times)))) ],
         Done (mkFrame record_keys (timed_rows data times)))
    | Raise e => ([Subheader "📅 Sentiment Over Time"], Uncaught e)
    end.
Proof.
  intros Hall. unfold show_trend.
  rewrite getitem_shaped by (try assumption; cbn; tauto).
  fold (published data). cbn [lift]. rewrite seq_emit, seq_ret.
  destruct (to_datetime parse_datetime (published data)) as [times|e] eqn:Htimes;
    [|reflexivity].
  cbn [lift]. rewrite seq_ret. unfold setitem.
  cbn [map_cells rows columns].
  rewrite !length_map, (mapM_length _ _ _ Htimes).
  unfold published. rewrite length_map, Nat.eqb_refl.
  replace (has_column _ "Published At") with true by reflexivity.
  cbn [lift]. rewrite seq_ret.
  unfold sort_values. cbn [columns rows].
  replace (has_column _ "Published At") with true by reflexivity.
  cbn [lift]. rewrite seq_ret, seq_emit.
  rewrite combine_map_map, map_map. reflexivity.
Qed.

Lemma batch_shaped (articles : list pyval) (data : list dict) :
  transform polarity_scores articles [] = Ok data -> data <> [] ->
  batch infer_string polarity_scores parse_datetime py_repr (PList articles) =
    match to_datetime parse_datetime (published (stored infer_string data)) with
    | Ok times =>
        ((upper_views py_repr (stored infer_string data) ++
          [ Subheader "📅 Sentiment Over Time";
            AltairChart (line_chart
              (mkFrame record_keys
                       (sort_by by_time (timed_rows (stored infer_string data) times))));
            DownloadButton "Download CSV"
                           (mkFrame record_keys (timed_rows (stored infer_string data) times))
                           "financial_news_sentiment.csv" "text/csv" ])%list,
         Done tt)
    | Raise e =>
        ((upper_views py_repr (stored infer_string data)
          ++ [Subheader "📅 Sentiment Over Time"])%list, Uncaught e)
    end.
Proof.
  intros Hdata Hne. pose proof (transform_shaped _ _ Hdata) as Hall.
  pose proof (stored_all_shaped infer_string data Hne Hall) as Hkept.
  pose proof (stored_nonempty infer_string data Hne) as Hsome.
  unfold batch. cbn [py_iter lift]. rewrite seq_ret, Hdata. cbn [lift].
  rewrite seq_ret, (DataFrame_of_shaped infer_string data Hne Hall).
  rewrite (show_table_shaped _ Hsome Hkept), seq_done.
  rewrite (show_distribution_shaped _ Hkept), seq_done.
  unfold show_scores. rewrite !seq_emit, (show_trend_shaped _ Hkept).
  destruct (to_datetime parse_datetime (published (stored infer_string data)))
    as [times|e]; reflexivity.
Qed.

Lemma batch_no_articles :
  batch infer_string polarity_scores parse_datetime py_repr (PList []) =
    ([Subheader "📰 Articles & Sentiment"],
     Uncaught (ValueError "Cannot set a DataFrame without columns to the column Title")).
Proof. reflexivity. Qed.

Lemma fetch_ok (api_key : string) (response : Response) (body articles : pyval) :
  requests_get url (params api_key) = Ok response ->
  status_code response = 200%Z ->
  json response = Ok body ->
  py_get body "articles" (PList []) = Ok articles ->
  fetch requests_get api_key = ([HttpGet url (params api_key)], Done articles).
Proof.
  intros Hget Hstatus Hjson Harticles. unfold fetch.
  rewrite Hget. cbn [lift]. rewrite seq_emit, seq_ret, Hstatus.
  cbn [negb Z.eqb Pos.eqb]. rewrite seq_ret, Hjson. cbn [lift].
  rewrite seq_ret, Harticles. reflexivity.
Qed.

Lemma main_page_fetched (api_key : string) (response : Response) (body articles : pyval) :
  api_key <> "" ->
  requests_get url (params api_key) = Ok response ->
  status_code response = 200%Z ->
  json response = Ok body ->
  py_get body "articles" (PList []) = Ok articles ->
  main_page infer_string polarity_scores requests_get parse_datetime py_repr api_key
  = ((header api_key
      ++ trace (batch infer_string polarity_scores parse_datetime py_repr articles))%list,
     ending (batch infer_string polarity_scores parse_datetime py_repr articles)).
Proof.
  intros Hkey Hget Hstatus Hjson Harticles.
  unfold main_page. apply truthy_text in Hkey.
  rewrite Hkey, (fetch_ok _ _ _ _ Hget Hstatus Hjson Harticles).
  cbn [negb]. rewrite !seq_emit, seq_ret, seq_done. reflexivity.
Qed.

Lemma analyze_cases (custom_url : string) :
  analyze polarity_scores py_repr import_newspaper download parse custom_url =
    match extraction import_newspaper download parse custom_url with
    | Ok article => (analysis_shown polarity_scores py_repr article, Done tt)
    | Raise e => ([Error ("Failed to analyze the article. Reason: " ++ str_exn e)], Done tt)
    end.
Proof.
  unfold analyze, extraction.
  destruct import_newspaper as [[]|e]; simpl; [|reflexivity].
  destruct (download custom_url) as [page|e]; simpl; [|reflexivity].
  destruct (parse page) as [article|e]; reflexivity.
Qed.

End Facts.

(** A frame built from no row has no column, so neither the columns of
    the table nor the labels can be read from it, whatever line 58 had
    stored as [Title]. *)
Lemma frame_without_columns_has_no_view (infer_string : bool) (vals : list pyval)
      (df : DataFrame pyval) :
  setitem (DataFrame_of infer_string []) "Title" vals = Ok df ->
  select df table_columns = Raise (KeyError "Sentiment") /\
  getitem (DataFrame_of infer_string []) "Sentiment" = Raise (KeyError "Sentiment").
Proof.
  unfold setitem. cbn [DataFrame_of union_keys fold_left map rows columns List.length].
  destruct vals as [|v vals]; cbn [List.length Nat.eqb]; [|discriminate].
  intros H. injection H as <-. split; reflexivity.
Qed.


(* ===================================================================== *)
(** ** The properties of the specification *)
(* ===================================================================== *)

Section Claims.

Variable infer_string : bool.
Variable polarity_scores : string -> float.
Variable requests_get : string -> dict -> result Response.
Variable parse_datetime : list pyval -> pyval -> result datetime.
Variable py_repr : pyval -> string.
Variable import_newspaper : result unit.
Variable download : string -> result string.
Variable parse : string -> result Article.

(** C1. In both paths the label is the one the two thresholds give for
    the compound score: every row the loop appends holds a score [c] and
    a label that is "positive" exactly when [c > 0.05], "negative"
    exactly when [c < -0.05] and "neutral" exactly when neither holds;
    the single-URL path shows such a label for the score of the
    extracted title and text; and the scores 0.05 and -0.05 themselves
    are labelled "neutral". *)
Theorem labels_follow_thresholds
    (articles : list pyval) (data : list dict) (row : dict)
    (custom_url page : string) (article : Article) :
  transform polarity_scores articles [] = Ok data ->
  In row data ->
  import_newspaper = Ok tt ->
  download custom_url = Ok page ->
  parse page = Ok article ->
  (exists c label,
      lookup "Compound" row = Some (PFloat c) /\
      lookup "Sentiment" row = Some (PStr label) /\
      threshold_rule c label) /\
  (exists c label,
      c = polarity_scores (title article ++ " " ++ text article) /\
      threshold_rule c label /\
      analyze polarity_scores py_repr import_newspaper download parse custom_url =
        ([ Markdown ("**Title:** " ++ title article);
           Markdown ("**Sentiment:** `" ++ label ++ "` with score `"
                     ++ py_str py_repr (PFloat c) ++ "`");
           Expander "View full article text" [Write (text article)] ],
         Done tt)) /\
  sentiment_class 0.05 = "neutral" /\ sentiment_class (-0.05) = "neutral" /\
  sentiment_label 0.05 = "neutral" /\ sentiment_label (-0.05) = "neutral".
Proof.
  intros Hdata Hrow Himport Hdownload Hparse. split; [|split].
  - apply transform_Forall2 in Hdata.
    assert (Hbuilt : exists a, build_record polarity_scores a = Ok row).
    { clear -Hdata Hrow. induction Hdata as [|a r l l' Har _ IH]; [destruct Hrow|].
      destruct Hrow as [<- | Hrow]; eauto. }
    destruct Hbuilt as [a Ha].
    destruct (build_record_shape _ _ _ Ha) as (T & D & U & c & So & P & ->).
    exists c, (sentiment_class c).
    split; [reflexivity|split; [reflexivity|apply sentiment_class_rule]].
  - exists (polarity_scores (title article ++ " " ++ text article)),
           (sentiment_label (polarity_scores (title article ++ " " ++ text article))).
    split; [reflexivity|]. split; [apply sentiment_class_rule|].
    rewrite analyze_cases. unfold extraction.
    rewrite Himport, Hdownload. cbn [bind]. rewrite Hparse. reflexivity.
  - repeat split; reflexivity.
Qed.


(** C3. The loop appends one row per article and drops none: on NewsAPI
    articles it runs to its end, and whenever it runs to its end, for
    any articles at all, [data] and the frame built from it have as many
    rows as there were articles. *)
Theorem one_record_per_article (articles : list pyval) :
  (forallb newsapi_article articles = true ->
   exists data, transform polarity_scores articles [] = Ok data) /\
  (forall data,
     transform polarity_scores articles [] = Ok data ->
     List.length data = List.length articles /\
     List.length (rows (DataFrame_of infer_string data)) = List.length articles).
Proof.
  split; [apply transform_newsapi|].
  intros data Hdata. pose proof (transform_length _ _ _ Hdata) as Hlen.
  split; [exact Hlen|].
  change (rows (DataFrame_of infer_string data)) with (stored infer_string data).
  now rewrite stored_length.
Qed.

(** C4. For NewsAPI articles whose time stamps parse, the frame drawn
    by the trend chart is a separate frame: its rows are a permutation
    of the rows of [df], its time stamps are those of [df] in ascending
    order with the missing ones last, and its compound scores are, as a
    multiset, those of the rows of the loop. [df] itself, exported by
    line 101, keeps the order of the loop, in which the table and the
    two charts above were drawn: its scores are those of the loop in
    that order, its time stamps are the parsed ones in that order, and
    every other column is the one the frame was built with. *)
Theorem trend_is_a_sorted_copy
    (articles : list pyval) (data : list dict) (times : list datetime) :
  forallb newsapi_article articles = true ->
  transform polarity_scores articles [] = Ok data ->
  data <> [] ->
  to_datetime parse_datetime (published (stored infer_string data)) = Ok times ->
  exists df df_sorted sorted_times,
    batch infer_string polarity_scores parse_datetime py_repr (PList articles) =
      ((upper_views py_repr (stored infer_string data) ++
        [ Subheader "📅 Sentiment Over Time";
          AltairChart (line_chart df_sorted);
          DownloadButton "Download CSV" df "financial_news_sentiment.csv" "text/csv" ])%list,
       Done tt) /\
    Permutation (rows df_sorted) (rows df) /\
    map (lookup "Published At") (rows df_sorted)
      = map (fun t => Some (Time t)) sorted_times /\
    Permutation sorted_times times /\
    chronological sorted_times /\
    Permutation (map (lookup "Compound") (rows df_sorted))
                (map (fun row => option_map Obj (lookup "Compound" row)) data) /\
    map (lookup "Compound") (rows df)
      = map (fun row => option_map Obj (lookup "Compound" row)) data /\
    map (lookup "Published At") (rows df) = map (fun t => Some (Time t)) times /\
    (forall k, k <> "Published At" ->
       map (lookup k) (rows df)
       = map (fun row => option_map Obj (lookup k row)) (stored infer_string data)).
Proof.
  intros _ Hdata Hne Htimes.
  set (kept := stored infer_string data) in *.
  assert (Hlen : List.length times = List.length kept).
  { rewrite (mapM_length _ _ _ Htimes). unfold published. apply length_map. }
  assert (Hscores : map (fun row => option_map Obj (lookup "Compound" row)) kept
                    = map (fun row => option_map Obj (lookup "Compound" row)) data).
  { rewrite <- !(map_map (lookup "Compound") (option_map Obj)).
    unfold kept. now rewrite (stored_scores infer_string _ _ _ Hdata). }
  pose proof (timed_rows_published kept times Hlen) as Hpub.
  assert (Hkeys : map (time_key "Published At") (timed_rows kept times) = times).
  { revert Hpub. generalize (timed_rows kept times). clear.
    intros l. revert times. induction l as [|x l IH]; intros [|t times] H;
      cbn [map] in *; try discriminate; [reflexivity|].
    injection H as Hx Hl. unfold time_key at 1. rewrite Hx. f_equal. now apply IH. }
  assert (Hcells : forall x, In x (timed_rows kept times) ->
            lookup "Published At" x = Some (Time (time_key "Published At" x))).
  { intros x Hx.
    assert (Hin : In (lookup "Published At" x)
                     (map (fun t => Some (Time t)) times)).
    { rewrite <- Hpub. now apply in_map. }
    apply in_map_iff in Hin as (t & Ht & _). unfold time_key. now rewrite <- Ht. }
  exists (mkFrame record_keys (timed_rows kept times)),
         (mkFrame record_keys (sort_by by_time (timed_rows kept times))),
         (map (time_key "Published At") (sort_by by_time (timed_rows kept times))).
  cbn [rows]. repeat apply conj.
  - rewrite (batch_shaped _ _ _ _ _ _ Hdata Hne). fold kept. now rewrite Htimes.
  - apply sort_by_perm.
  - rewrite map_map. apply map_ext_in. intros x Hx. apply Hcells.
    eapply Permutation_in; [apply sort_by_perm|exact Hx].
  - rewrite <- Hkeys at 2. apply Permutation_map, sort_by_perm.
  - apply sort_by_time_chronological.
  - rewrite <- Hscores, <- (timed_rows_other "Compound" kept times)
      by (discriminate || assumption).
    apply Permutation_map, sort_by_perm.
  - rewrite <- Hscores. apply timed_rows_other; [discriminate|assumption].
  - exact Hpub.
  - intros k Hk. now apply timed_rows_other.
Qed.

(** C5. When the response status is not 200, the run shows the error
    message and stops: the trace ends with the error, no row is built
    and no table, chart or download button follows. *)
Theorem failed_fetch_halts (api_key custom_url : string) (response : Response) :
  api_key <> "" ->
  requests_get url (params api_key) = Ok response ->
  status_code response <> 200%Z ->
  dashboard infer_string polarity_scores requests_get parse_datetime py_repr import_newspaper download parse api_key custom_url =
    ([ SetPageConfig "Financial News Sentiment" "wide";
       Title "📈 Financial News Sentiment Dashboard";
       SidebarTextInput "Enter your NewsAPI Key";
       HttpGet url (params api_key);
       Error "Failed to fetch articles. Check your API key or try again later." ],
     Stopped).
Proof.
  intros Hkey Hget Hstatus.
  unfold dashboard, main_page, fetch.
  apply truthy_text in Hkey. rewrite Hkey, Hget.
  apply Z.eqb_neq in Hstatus. cbn [negb lift seq emit ret app].
  rewrite Hstatus. reflexivity.
Qed.

(** C6. With an empty key the run shows the warning and stops; nothing
    follows the warning and no HTTP request is made. *)
Theorem missing_key_halts (custom_url : string) :
  dashboard infer_string polarity_scores requests_get parse_datetime py_repr import_newspaper download parse "" custom_url =
    ([ SetPageConfig "Financial News Sentiment" "wide";
       Title "📈 Financial News Sentiment Dashboard";
       SidebarTextInput "Enter your NewsAPI Key";
       Warning "Please enter your NewsAPI key in the sidebar." ],
     Stopped) /\
  forall u p, ~ In (HttpGet u p) (trace (dashboard infer_string polarity_scores requests_get parse_datetime py_repr import_newspaper download parse "" custom_url)).
Proof.
  split; [reflexivity|].
  intros u p [H | [H | [H | [H | []]]]]; discriminate.
Qed.


(** C8, amended. For NewsAPI articles, a time stamp that is text and
    that the parser rejects makes line 89 raise the parser's exception,
    which nothing catches: the run ends after the heading of the trend,
    with no chart and no download button, and no value is substituted.
    A time stamp that is absent or null never fails: when every text
    parses the run goes on, and each absent or null time stamp has
    become [NaT]. *)
Theorem timestamps_rejected_or_missing (articles : list pyval) (data : list dict) :
  forallb newsapi_article articles = true ->
  transform polarity_scores articles [] = Ok data ->
  data <> [] ->
  (forall i items s e,
     nth_error articles i = Some (PDict items) ->
     field items "publishedAt" = PStr s ->
     parse_datetime (published (stored infer_string data)) (PStr s) = Raise e ->
     exists s' e',
       In (PStr s') (entries "publishedAt" articles) /\
       parse_datetime (published (stored infer_string data)) (PStr s') = Raise e' /\
       batch infer_string polarity_scores parse_datetime py_repr (PList articles) =
         ((upper_views py_repr (stored infer_string data)
           ++ [Subheader "📅 Sentiment Over Time"])%list,
          Uncaught e')) /\
  ((forall s, In (PStr s) (entries "publishedAt" articles) ->
      exists t, parse_datetime (published (stored infer_string data)) (PStr s) = Ok t) ->
   exists times,
     to_datetime parse_datetime (published (stored infer_string data)) = Ok times /\
     Forall2 (fun a t => forall items, a = PDict items ->
                missing_field items "publishedAt" -> t = NaT)
             articles times /\
     map (lookup "Published At") (timed_rows (stored infer_string data) times)
       = map (fun t => Some (Time t)) times /\
     batch infer_string polarity_scores parse_datetime py_repr (PList articles) =
       ((upper_views py_repr (stored infer_string data) ++
         [ Subheader "📅 Sentiment Over Time";
           AltairChart (line_chart
             (mkFrame record_keys
                (sort_by by_time (timed_rows (stored infer_string data) times))));
           DownloadButton "Download CSV"
                          (mkFrame record_keys (timed_rows (stored infer_string data) times))
                          "financial_news_sentiment.csv" "text/csv" ])%list,
        Done tt)).
Proof.
  intros Hwf Hdata Hne.
  pose proof (transform_shaped _ _ _ Hdata) as Hshaped.
  pose proof (newsapi_entries "publishedAt" articles ltac:(cbn; auto 6) Hwf) as Htext.
  set (raw := entries "publishedAt" articles) in *.
  assert (Hcol : published (stored infer_string data)
                 = map (text_cell infer_string raw) raw).
  { apply (stored_newsapi_column infer_string polarity_scores
             "publishedAt" "Published At"); [cbn; auto 6|assumption|assumption]. }
  assert (Hcells : forall v, In v (published (stored infer_string data)) ->
            is_missing v = true \/ exists s, v = PStr s /\ In (PStr s) raw).
  { intros v Hv. rewrite Hcol in Hv. apply in_map_iff in Hv as (x & <- & Hx).
    rewrite forallb_forall in Htext. pose proof (Htext x Hx) as Htx.
    destruct x; try discriminate.
    - left. cbn [text_cell]. now destruct (infer_string && existsb is_text raw).
    - right. exists s. split; [reflexivity|exact Hx]. }
  split.
  - intros i items s e Hi Hs He.
    destruct (mapM_raises
                (fun v => if is_missing v then Ok NaT
                          else parse_datetime (published (stored infer_string data)) v)
                (published (stored infer_string data))) as (v & e' & Hin & Hv & Hall).
    { apply Exists_exists. exists (PStr s). split.
      - rewrite Hcol. apply in_map_iff. exists (PStr s). split; [reflexivity|].
        unfold raw, entries. apply in_map_iff. exists (PDict items).
        split; [exact Hs|]. eapply nth_error_In; eassumption.
      - exists e. exact He. }
    destruct (Hcells v Hin) as [Hmiss | (s' & -> & Hs')];
      [now rewrite Hmiss in Hv|].
    exists s', e'. split; [exact Hs'|]. split; [exact Hv|].
    rewrite (batch_shaped _ _ _ _ _ _ Hdata Hne). unfold to_datetime at 1.
    now rewrite Hall.
  - intros Hgood.
    destruct (mapM_total
                (fun v => if is_missing v then Ok NaT
                          else parse_datetime (published (stored infer_string data)) v)
                (published (stored infer_string data))) as (times & Htimes).
    { apply Forall_forall. intros v Hv.
      destruct (Hcells v Hv) as [Hmiss | (s & -> & Hs)].
      - rewrite Hmiss. now exists NaT.
      - exact (Hgood s Hs). }
    exists times. split; [exact Htimes|]. split.
    { pose proof (to_datetime_missing parse_datetime _ _ Htimes) as Hnat.
      rewrite Hcol in Hnat. unfold raw, entries in Hnat.
      apply Forall2_map_left, Forall2_map_left in Hnat.
      eapply Forall2_impl; [|exact Hnat].
      intros a t Hat items -> Hmiss. apply Hat. cbn beta iota.
      replace (field items "publishedAt") with PNone
        by (destruct Hmiss as [Hk | Hk]; unfold field; now rewrite Hk).
      cbn [text_cell].
      now destruct (infer_string && existsb is_text _). }
    split.
    + apply timed_rows_published.
      rewrite (mapM_length _ _ _ Htimes). unfold published. apply length_map.
    + rewrite (batch_shaped _ _ _ _ _ _ Hdata Hne). unfold to_datetime at 1.
      now rewrite Htimes.
Qed.


(** C10. A 200 response whose body has no "articles" key gives the
    empty list, zero rows and a frame without rows or columns; the run
    then dies on line 58 with a [ValueError], right after the heading of
    the table: no view is drawn. *)
Theorem response_without_articles (api_key custom_url : string)
        (response : Response) (items : dict) :
  api_key <> "" ->
  requests_get url (params api_key) = Ok response ->
  status_code response = 200%Z ->
  json response = Ok (PDict items) ->
  lookup "articles" items = None ->
  transform polarity_scores [] [] = Ok [] /\
  DataFrame_of infer_string [] = mkFrame [] [] /\
  dashboard infer_string polarity_scores requests_get parse_datetime py_repr import_newspaper download parse api_key custom_url =
    ((header api_key ++ [Subheader "📰 Articles & Sentiment"])%list,
     Uncaught (ValueError "Cannot set a DataFrame without columns to the column Title")).
Proof.
  intros Hkey Hget Hstatus Hjson Hnone.
  split; [reflexivity|]. split; [reflexivity|].
  unfold dashboard.
  rewrite (main_page_fetched _ _ _ _ _ api_key response (PDict items) (PList []))
    by (try assumption; unfold py_get; now rewrite Hnone).
  rewrite batch_no_articles. reflexivity.
Qed.

End Claims.

(* ===================================================================== *)
(** ** Concrete instances *)
(* ===================================================================== *)

Lemma labels_follow_thresholds_witness :
  (exists c label,
      lookup "Compound" Sample.row2 = Some (PFloat c) /\
      lookup "Sentiment" Sample.row2 = Some (PStr label) /\
      threshold_rule c label) /\
  analyze Sample.scorer Sample.py_repr (Ok tt) Sample.fetch_page Sample.extract
          "https://news.example/fed" =
    ([ Markdown "**Title:** Fed holds rates";
       Markdown "**Sentiment:** `neutral` with score `0.05`";
       Expander "View full article text"
                [Write "The central bank kept rates unchanged."] ],
     Done tt).
Proof.
  destruct (labels_follow_thresholds
              Sample.scorer Sample.py_repr (Ok tt) Sample.fetch_page Sample.extract
              Sample.articles Sample.rows Sample.row2
              "https://news.example/fed" Sample.page Sample.article)
    as (Hbatch & (c & label & -> & _ & Hshown) & _);
    try reflexivity.
  - right; left; reflexivity.
  - split; [exact Hbatch|]. vm_compute. reflexivity.
Defined.


Lemma one_record_per_article_witness :
  exists data,
    transform Sample.scorer Sample.articles [] = Ok data /\
    List.length data = 3 /\
    List.length (rows (DataFrame_of true data)) = 3.
Proof.
  destruct (one_record_per_article true Sample.scorer Sample.articles) as [Hruns Hcount].
  destruct (Hruns eq_refl) as [data Hdata].
  exists data. split; [exact Hdata|]. exact (Hcount data Hdata).
Defined.

Lemma trend_is_a_sorted_copy_witness :
  exists df df_sorted,
    In (AltairChart (line_chart df_sorted))
       (trace (batch true Sample.scorer Sample.parse_datetime Sample.py_repr
                     (PList Sample.articles))) /\
    In (DownloadButton "Download CSV" df "financial_news_sentiment.csv" "text/csv")
       (trace (batch true Sample.scorer Sample.parse_datetime Sample.py_repr
                     (PList Sample.articles))) /\
    map (lookup "Published At") (rows df_sorted)
      = [ Some (Time (Timestamp 1704067200000000000));
          Some (Time (Timestamp 1704153600000000000));
          Some (Time NaT) ] /\
    map (lookup "Compound") (rows df_sorted)
      = [ Some (Obj (PFloat (-0.2))); Some (Obj (PFloat 0.6));
          Some (Obj (PFloat 0)) ] /\
    map (lookup "Published At") (rows df)
      = [ Some (Time (Timestamp 1704153600000000000));
          Some (Time (Timestamp 1704067200000000000));
          Some (Time NaT) ] /\
    map (lookup "Compound") (rows df)
      = [ Some (Obj (PFloat 0.6)); Some (Obj (PFloat (-0.2)));
          Some (Obj (PFloat 0)) ].
Proof.
  assert (Hwf : forallb newsapi_article Sample.articles = true) by reflexivity.
  assert (Hdata : transform Sample.scorer Sample.articles [] = Ok Sample.rows)
    by reflexivity.
  assert (Hne : Sample.rows <> []) by discriminate.
  assert (Htimes : to_datetime Sample.parse_datetime (published (stored true Sample.rows))
                   = Ok Sample.times) by reflexivity.
  destruct (trend_is_a_sorted_copy
              true Sample.scorer Sample.parse_datetime Sample.py_repr
              Sample.articles Sample.rows Sample.times Hwf Hdata Hne Htimes)
    as (df & df_sorted & sorted_times & Hrun & _ & _ & _ & _ & _ & Hscores & Hpub & _).
  exists df, df_sorted. rewrite Hrun.
  split; [apply in_or_app; right; right; left; reflexivity|].
  split; [apply in_or_app; right; right; right; left; reflexivity|].
  pose proof (f_equal (fun m => match nth_error (trace m) 8 with
                                | Some (AltairChart c) => Some (chart_data c)
                                | _ => None
                                end) Hrun) as Hsorted.
  vm_compute in Hsorted. injection Hsorted as <-.
  split; [reflexivity|]. split; [reflexivity|].
  split; [exact Hpub|exact Hscores].
Defined.

Lemma failed_fetch_halts_witness :
  dashboard false Sample.scorer (Sample.respond 401 (PDict [("status", PStr "error")]))
            Sample.parse_datetime Sample.py_repr (Ok tt) Sample.fetch_page
            Sample.extract "an-invalid-key" "https://news.example/fed"
  = ([ SetPageConfig "Financial News Sentiment" "wide";
       Title "📈 Financial News Sentiment Dashboard";
       SidebarTextInput "Enter your NewsAPI Key";
       HttpGet url (params "an-invalid-key");
       Error "Failed to fetch articles. Check your API key or try again later." ],
     Stopped).
Proof.
  apply (failed_fetch_halts
           false Sample.scorer (Sample.respond 401 (PDict [("status", PStr "error")]))
           Sample.parse_datetime Sample.py_repr (Ok tt) Sample.fetch_page
           Sample.extract "an-invalid-key" "https://news.example/fed"
           (mkResponse 401 (Ok (PDict [("status", PStr "error")]))));
    [discriminate | reflexivity | discriminate].
Defined.


Lemma timestamps_rejected_or_missing_witness :
  (exists e,
     batch false Sample.scorer Sample.parse_datetime Sample.py_repr
           (PList [Sample.art1; Sample.art_bad_date])
     = ((upper_views Sample.py_repr (stored false [Sample.row1; Sample.row_bad_date])
         ++ [Subheader "📅 Sentiment Over Time"])%list,
        Uncaught e)) /\
  (exists times,
     to_datetime Sample.parse_datetime (published (stored true Sample.rows)) = Ok times /\
     nth_error times 2 = Some NaT /\
     ending (batch true Sample.scorer Sample.parse_datetime Sample.py_repr
                   (PList Sample.articles)) = Done tt).
Proof.
  split.
  - assert (Hwf : forallb newsapi_article [Sample.art1; Sample.art_bad_date] = true)
      by reflexivity.
    assert (Hdata : transform Sample.scorer [Sample.art1; Sample.art_bad_date] []
                    = Ok [Sample.row1; Sample.row_bad_date]) by reflexivity.
    assert (Hne : [Sample.row1; Sample.row_bad_date] <> []) by discriminate.
    destruct (proj1 (timestamps_rejected_or_missing
                       false Sample.scorer Sample.parse_datetime Sample.py_repr
                       _ _ Hwf Hdata Hne)
                    1 _ "yesterday"
                    (ValueError "Unknown datetime string format, unable to parse")
                    eq_refl eq_refl eq_refl)
      as (s' & e' & _ & _ & Hbatch).
    exists e'. exact Hbatch.
  - assert (Hwf : forallb newsapi_article Sample.articles = true) by reflexivity.
    assert (Hdata : transform Sample.scorer Sample.articles [] = Ok Sample.rows)
      by reflexivity.
    assert (Hne : Sample.rows <> []) by discriminate.
    destruct (proj2 (timestamps_rejected_or_missing
                       true Sample.scorer Sample.parse_datetime Sample.py_repr
                       _ _ Hwf Hdata Hne))
      as (times & Htimes & Hnat & _ & Hbatch).
    { intros s [Hs | [Hs | [Hs | []]]]; try discriminate;
        injection Hs as <-; eexists; reflexivity. }
    exists times. split; [exact Htimes|]. split; [|rewrite Hbatch; reflexivity].
    inversion Hnat as [|a1 t1 l1 l1' _ Hnat1]; subst.
    inversion Hnat1 as [|a2 t2 l2 l2' _ Hnat2]; subst.
    inversion Hnat2 as [|a3 t3 l3 l3' H3 _]; subst.
    cbn [nth_error]. f_equal. apply (H3 Sample.art3_items eq_refl). left. reflexivity.
Defined.


Lemma response_without_articles_witness :
  dashboard true Sample.scorer (Sample.respond 200 (PDict Sample.body_without_articles))
            Sample.parse_datetime Sample.py_repr (Ok tt) Sample.fetch_page
            Sample.extract "key" ""
  = ([ SetPageConfig "Financial News Sentiment" "wide";
       Title "📈 Financial News Sentiment Dashboard";
       SidebarTextInput "Enter your NewsAPI Key";
       HttpGet url (params "key");
       Subheader "📰 Articles & Sentiment" ],
     Uncaught (ValueError "Cannot set a DataFrame without columns to the column Title")).
Proof.
  apply (response_without_articles
           true Sample.scorer (Sample.respond 200 (PDict Sample.body_without_articles))
           Sample.parse_datetime Sample.py_repr (Ok tt) Sample.fetch_page
           Sample.extract "key" ""
           (mkResponse 200 (Ok (PDict Sample.body_without_articles)))
           Sample.body_without_articles);
    (discriminate || reflexivity).
Defined.



(** An article without a time stamp does not make the conversion fail,
    even with a parser that rejects whatever it is asked: the run is
    completed and the entry has become [NaT]. *)
Lemma absent_timestamp_becomes_NaT :
  lookup "publishedAt" Sample.art3_items = None /\
  ending (dashboard false Sample.scorer (Sample.respond 200 (Sample.body [Sample.art3]))
                    Sample.reject_all Sample.py_repr (Ok tt) Sample.fetch_page
                    Sample.extract "key" "") = Done tt /\
  exists df,
    ending (show_trend Sample.reject_all (DataFrame_of false [Sample.row3])) = Done df /\
    map (lookup "Published At") (rows df) = [Some (Time NaT)].
Proof.
  split; [reflexivity|]. split; [vm_compute; reflexivity|].
  eexists. split; vm_compute; reflexivity.
Qed.

(* ===================================================================== *)
(** ** Further properties of the script *)
(* ===================================================================== *)

(** *** Traces *)

Lemma trace_seq {A B : Type} (m : script A) (k : A -> script B) :
  trace (seq m k) =
    (trace m ++ match ending m with
                | Done a => trace (k a)
                | _ => []
                end)%list.
Proof.
  destruct m as [t [a|e|]]; cbn [seq trace ending fst snd].
  - now destruct (k a).
  - now rewrite app_nil_r.
  - now rewrite app_nil_r.
Qed.

Lemma ending_seq {A B : Type} (m : script A) (k : A -> script B) :
  ending (seq m k) =
    match ending m with
    | Done a => ending (k a)
    | Uncaught e => Uncaught e
    | Stopped => Stopped
    end.
Proof.
  destruct m as [t [a|e|]]; cbn [seq trace ending fst snd]; try reflexivity.
  now destruct (k a).
Qed.

Lemma filter_trace_seq {A B : Type} (p : event -> bool) (m : script A)
      (k : A -> script B) :
  filter p (trace (seq m k)) =
    (filter p (trace m) ++ match ending m with
                           | Done a => filter p (trace (k a))
                           | _ => []
                           end)%list.
Proof.
  rewrite trace_seq, filter_app. now destruct (ending m).
Qed.

Section Silent.
Variable p : event -> bool.

Lemma silent_ret {A : Type} (a : A) : silent p (ret a).
Proof. reflexivity. Qed.

Lemma silent_stop {A : Type} : silent p (@stop A).
Proof. reflexivity. Qed.

Lemma silent_lift {A : Type} (r : result A) : silent p (lift r).
Proof. now destruct r. Qed.

Lemma silent_emit (e : event) : p e = false -> silent p (emit e).
Proof. intros H. unfold silent. cbn [emit trace fst filter]. now rewrite H. Qed.

Lemma silent_seq {A B : Type} (m : script A) (k : A -> script B) :
  silent p m -> (forall a, silent p (k a)) -> silent p (seq m k).
Proof.
  unfold silent. intros Hm Hk. rewrite trace_seq, filter_app, Hm.
  destruct (ending m); [apply Hk|reflexivity|reflexivity].
Qed.

Lemma silent_try {A : Type} (m : script A) (h : exn -> script A) :
  silent p m -> (forall e, silent p (h e)) -> silent p (try_except m h).
Proof.
  unfold silent. intros Hm Hh. destruct m as [t [a|e|]]; cbn [try_except]; try exact Hm.
  specialize (Hh e). destruct (h e) as [t' o].
  cbn [trace fst] in *. now rewrite filter_app, Hm, Hh.
Qed.
End Silent.

Ltac silence :=
  repeat first
    [ apply silent_ret
    | apply silent_stop
    | apply silent_lift
    | apply silent_emit; reflexivity
    | apply silent_seq; [|intro]
    | apply silent_try; [|intro]
    | match goal with
      | |- silent _ (if ?c then _ else _) => destruct c
      end ].

(** *** The operands of the loop body *)

Lemma or_empty_usable (v : pyval) :
  usable_text v = true -> py_or v (PStr "") = PStr (text_of v).
Proof.
  unfold usable_text, py_or. destruct (truthy v) eqn:Hv; cbn [negb orb].
  - destruct v; try discriminate. reflexivity.
  - intros _. destruct v; try reflexivity.
    cbn [truthy] in Hv. apply negb_false_iff, String.eqb_eq in Hv. now subst.
Qed.

Lemma add_text_unusable (v : pyval) (s : string) :
  usable_text v = false ->
  exists d, py_add_text (py_or v (PStr "")) s = Raise (TypeError d).
Proof.
  unfold usable_text, py_or. destruct (truthy v) eqn:Hv; cbn [negb orb]; [|discriminate].
  destruct v; try discriminate; intros _; cbn [py_add_text]; eauto.
Qed.

Lemma text_add_unusable (v : pyval) (t : string) :
  usable_text v = false ->
  exists d, py_text_add t (py_or v (PStr "")) = Raise (TypeError d).
Proof.
  unfold usable_text, py_or. destruct (truthy v) eqn:Hv; cbn [negb orb]; [|discriminate].
  destruct v; try discriminate; intros _; cbn [py_text_add]; eauto.
Qed.

(** *** Counting *)

Lemma same_text_eq (a b : pyval) :
  same_text a b = true -> exists l, a = PStr l /\ b = PStr l.
Proof.
  destruct a, b; try discriminate. cbn [same_text].
  intros H. apply String.eqb_eq in H. subst. eauto.
Qed.

Lemma list_sum_cons (n : nat) (l : list nat) : list_sum (n :: l) = n + list_sum l.
Proof. reflexivity. Qed.

Lemma tally_sum {C : Type} (eqb : C -> C -> bool) (v : C) (acc : list (C * nat)) :
  list_sum (map snd (tally eqb v acc)) = S (list_sum (map snd acc)).
Proof.
  induction acc as [|[w n] acc IH]; cbn [tally map snd]; [reflexivity|].
  destruct (eqb w v); cbn [map snd]; rewrite !list_sum_cons; [lia|].
  rewrite IH. lia.
Qed.

Lemma tallies_sum {C : Type} (eqb : C -> C -> bool) (col : list C)
      (acc : list (C * nat)) :
  list_sum (map snd (fold_left (fun acc v => tally eqb v acc) col acc))
  = List.length col + list_sum (map snd acc).
Proof.
  revert acc. induction col as [|v col IH]; intros acc; cbn [fold_left List.length];
    [reflexivity|].
  rewrite IH, tally_sum. lia.
Qed.

Lemma list_sum_perm (l l' : list nat) :
  Permutation l l' -> list_sum l = list_sum l'.
Proof.
  induction 1; rewrite ?list_sum_cons; lia.
Qed.

Lemma filter_perm {A : Type} (f : A -> bool) (l l' : list A) :
  Permutation l l' -> Permutation (filter f l) (filter f l').
Proof.
  induction 1 as [|x l l' _ IH|x y l|l l' l'' _ IH1 _ IH2]; cbn [filter].
  - constructor.
  - destruct (f x); [now constructor|exact IH].
  - destruct (f x), (f y); try reflexivity. apply perm_swap.
  - now transitivity (filter f l').
Qed.

Lemma total_tally (l : string) (v : pyval) (acc : list (pyval * nat)) :
  total l (tally same_text v acc)
  = total l acc + (if same_text v (PStr l) then 1 else 0).
Proof.
  unfold total.
  induction acc as [|[w n] acc IH]; cbn [tally filter fst].
  - destruct (same_text v (PStr l)); reflexivity.
  - destruct (same_text w v) eqn:Hwv; cbn [filter fst].
    + destruct (same_text_eq _ _ Hwv) as (x & -> & ->).
      destruct (same_text (PStr x) (PStr l)); cbn [map snd];
        rewrite ?list_sum_cons; lia.
    + destruct (same_text w (PStr l)); cbn [map snd];
        rewrite ?list_sum_cons, IH; lia.
Qed.

Lemma total_tallies (l : string) (col : list pyval) (acc : list (pyval * nat)) :
  total l (fold_left (fun acc v => tally same_text v acc) col acc)
  = total l acc + List.length (filter (fun v => same_text v (PStr l)) col).
Proof.
  revert acc. induction col as [|v col IH]; intros acc; cbn [fold_left filter];
    [cbn [List.length]; lia|].
  rewrite IH, total_tally.
  destruct (same_text v (PStr l)); cbn [List.length]; lia.
Qed.

Lemma total_perm (l : string) (c c' : list (pyval * nat)) :
  Permutation c c' -> total l c = total l c'.
Proof.
  intros H. unfold total. apply list_sum_perm, Permutation_map, filter_perm, H.
Qed.

Lemma total_value_counts (l : string) (col : list pyval) :
  total l (value_counts same_text col)
  = List.length (filter (fun v => same_text v (PStr l)) col).
Proof.
  unfold value_counts. rewrite (total_perm l _ _ (sort_by_perm _ _)).
  now rewrite total_tallies.
Qed.

(** The keys of a tally of texts are distinct texts of the column, each
    with a positive count. *)
Lemma tally_keys (v : pyval) (acc : list (pyval * nat)) :
  is_text v = true ->
  NoDup (map fst acc) ->
  NoDup (map fst (tally same_text v acc)) /\
  (forall w, In w (map fst (tally same_text v acc)) -> w = v \/ In w (map fst acc)).
Proof.
  intros Hv. induction acc as [|[w n] acc IH]; intros Hnd;
    cbn [tally map fst].
  - split; [repeat constructor; intros []|]. intros w [<- | []]; now left.
  - inversion Hnd as [|? ? Hw Hacc]; subst.
    destruct (same_text w v) eqn:Hwv; cbn [map fst].
    + split; [exact Hnd|]. intros x Hx. now right.
    + destruct (IH Hacc) as [IHnd IHin]. split.
      * constructor; [|exact IHnd]. intros Hin.
        destruct (IHin _ Hin) as [-> | Hin']; [|contradiction].
        destruct v; try discriminate. cbn [same_text] in Hwv.
        now rewrite String.eqb_refl in Hwv.
      * intros x [<- | Hx]; [right; now left|].
        destruct (IHin _ Hx); [now left|right; now right].
Qed.

Lemma tally_positive {C : Type} (eqb : C -> C -> bool) (v : C) (acc : list (C * nat)) :
  Forall (fun vn => 0 < snd vn) acc ->
  Forall (fun vn => 0 < snd vn) (tally eqb v acc).
Proof.
  induction 1 as [|[w n] acc Hn Hacc IH]; cbn [tally].
  - repeat constructor.
  - destruct (eqb w v); constructor; cbn [snd] in *; try lia; assumption.
Qed.

Lemma tallies_keys (col : list pyval) (acc : list (pyval * nat)) :
  Forall (fun v => is_text v = true) col ->
  NoDup (map fst acc) ->
  Forall (fun vn => 0 < snd vn) acc ->
  let counts := fold_left (fun acc v => tally same_text v acc) col acc in
  NoDup (map fst counts) /\
  Forall (fun vn => 0 < snd vn) counts /\
  (forall w, In w (map fst counts) -> In w col \/ In w (map fst acc)).
Proof.
  intros Hcol. revert acc.
  induction Hcol as [|v col Hv _ IH]; intros acc Hnd Hpos; cbn [fold_left].
  - repeat split; auto.
  - destruct (tally_keys v acc Hv Hnd) as [Hnd' Hin'].
    destruct (IH _ Hnd' (tally_positive _ v acc Hpos)) as (H1 & H2 & H3).
    repeat split; try assumption.
    intros w Hw. destruct (H3 w Hw) as [Hc | Ht].
    + left. now right.
    + destruct (Hin' w Ht) as [-> | Ha]; [left; now left|now right].
Qed.

Lemma total_of_entry (l : string) (n : nat) (counts : list (pyval * nat)) :
  NoDup (map fst counts) -> In (PStr l, n) counts -> total l counts = n.
Proof.
  unfold total. induction counts as [|[w m] counts IH]; intros Hnd Hin; [destruct Hin|].
  cbn [map fst] in Hnd. inversion Hnd as [|? ? Hw Hrest]; subst.
  assert (Habsent : forall c : list (pyval * nat),
            ~ In (PStr l) (map fst c) ->
            filter (fun vn => same_text (fst vn) (PStr l)) c = []).
  { clear. induction c as [|[w m] c IHc]; intros Hno; cbn [filter fst]; [reflexivity|].
    destruct (same_text w (PStr l)) eqn:Hwl.
    - destruct (same_text_eq _ _ Hwl) as (x & -> & Hx). injection Hx as <-.
      exfalso. apply Hno. now left.
    - apply IHc. intros Hc. apply Hno. now right. }
  cbn [filter fst]. destruct Hin as [Heq | Hin].
  - injection Heq as -> ->. cbn [same_text]. rewrite String.eqb_refl.
    rewrite (Habsent counts Hw). cbn. lia.
  - destruct (same_text w (PStr l)) eqn:Hwl; [|now apply IH].
    destruct (same_text_eq _ _ Hwl) as (x & -> & Hx). injection Hx as <-.
    exfalso. apply Hw. change (PStr l) with (fst (PStr l, n)). now apply in_map.
Qed.

Section Further.

Variable infer_string : bool.
Variable polarity_scores : string -> float.
Variable requests_get : string -> dict -> result Response.
Variable parse_datetime : list pyval -> pyval -> result datetime.
Variable py_repr : pyval -> string.
Variable import_newspaper : result unit.
Variable download : string -> result string.
Variable parse : string -> result Article.

(** **** The request (lines 13-30) *)

Lemma batch_silent (p : event -> bool) (articles : pyval) :
  p (Subheader "📰 Articles & Sentiment") = false ->
  p (Subheader "📊 Sentiment Distribution") = false ->
  p (Subheader "📉 Article Sentiment Scores") = false ->
  p (Subheader "📅 Sentiment Over Time") = false ->
  (forall s, p (Write s) = false) ->
  (forall t, p (WriteHtml t) = false) ->
  (forall c, p (AltairChart c) = false) ->
  (forall l d f m, p (DownloadButton l d f m) = false) ->
  silent p (batch infer_string polarity_scores parse_datetime py_repr articles).
Proof.
  intros Hs1 Hs2 Hs3 Hs4 Hw Hh Hc Hd.
  unfold batch, show_table, show_distribution, show_scores, show_trend, offer_csv.
  cbv zeta.
  repeat first
    [ apply silent_ret
    | apply silent_lift
    | apply silent_emit;
      first [exact Hs1 | exact Hs2 | exact Hs3 | exact Hs4
            | apply Hw | apply Hh | apply Hc | apply Hd]
    | apply silent_seq; [|intro] ].
Qed.

Lemma main_page_never_shows_url_heading (api_key : string) :
  silent is_url_heading
         (main_page infer_string polarity_scores requests_get parse_datetime py_repr api_key).
Proof.
  unfold main_page, fetch.
  repeat first
    [ apply silent_ret
    | apply silent_stop
    | apply silent_lift
    | apply silent_emit; reflexivity
    | apply batch_silent; intros; reflexivity
    | apply silent_seq; [|intro]
    | match goal with
      | |- silent _ (if ?c then _ else _) => destruct c
      end ].
Qed.

Lemma custom_url_section_silent (custom_url : string) :
  silent is_request
         (custom_url_section polarity_scores py_repr import_newspaper download parse
                             custom_url).
Proof. unfold custom_url_section, analyze. silence. Qed.

(** X1. The script sends its query to NewsAPI (line 27) at most once
    per run: not at all when the key is empty, and exactly once
    otherwise, to the fixed address and with the parameters that hold
    the key, whatever the response, the articles and the custom URL
    are. Nothing below line 27 sends it again. What newspaper's
    [download] fetches for the custom URL is the extractor's own
    traffic and no effect of the script. *)
Theorem newsapi_is_queried_at_most_once (api_key custom_url : string) :
  filter is_request
         (trace (dashboard infer_string polarity_scores requests_get parse_datetime py_repr
                           import_newspaper download parse api_key custom_url))
  = if api_key =? "" then [] else [HttpGet url (params api_key)].
Proof.
  destruct (api_key =? "") eqn:Hkey.
  - apply String.eqb_eq in Hkey. subst api_key. reflexivity.
  - unfold dashboard. rewrite filter_trace_seq.
    replace (match ending _ with Done _ => _ | _ => [] end) with (@nil event).
    2:{ destruct (ending _); try reflexivity.
        symmetry. apply custom_url_section_silent. }
    rewrite app_nil_r. unfold main_page. cbn [truthy]. rewrite Hkey. cbn [negb].
    rewrite !seq_emit. cbn [trace fst filter is_request].
    rewrite seq_ret, filter_trace_seq.
    replace (match ending _ with Done _ => _ | _ => [] end) with (@nil event).
    2:{ destruct (ending _); try reflexivity.
        symmetry. apply batch_silent; reflexivity. }
    rewrite app_nil_r. unfold fetch. rewrite seq_emit. cbn [trace fst filter is_request].
    f_equal. change (silent is_request
      (response <~ lift (requests_get url (params api_key)) ;;
       (if negb (status_code response =? 200)%Z
        then emit (Error "Failed to fetch articles. Check your API key or try again later.") ;;>
             stop
        else ret tt) ;;>
       body <~ lift (json response) ;;
       lift (py_get body "articles" (PList [])))).
    silence.
Qed.

(** **** The loop (lines 35-48) *)

Lemma build_record_accepted (items : dict) :
  loop_accepts (PDict items) = true ->
  build_record polarity_scores (PDict items) =
    Ok (record (field items "title") (field items "description") (field items "url")
               (PStr (sentiment_class (polarity_scores (content_of items))))
               (PFloat (polarity_scores (content_of items)))
               (source_name items) (field items "publishedAt")).
Proof.
  unfold loop_accepts. rewrite !andb_true_iff. intros ((Ht & Hd) & Hs).
  unfold build_record.
  rewrite py_get_field; cbn [bind].
  rewrite (or_empty_usable _ Ht); cbn [py_add_text bind].
  rewrite py_get_field; cbn [bind].
  rewrite (or_empty_usable _ Hd); cbn [py_text_add bind].
  repeat (rewrite py_get_field; cbn [bind]).
  unfold source_name, content_of, py_get at 1.
  destruct (lookup "source" items) as [[]|]; try discriminate; cbn [bind].
  - unfold py_get. destruct (lookup "name" items0); reflexivity.
  - reflexivity.
Qed.

Lemma build_record_rejected (a : pyval) :
  loop_accepts a = false ->
  exists e, build_record polarity_scores a = Raise e /\
            (is_AttributeError_get e = true \/ is_TypeError e = true).
Proof.
  destruct a as [| | | | |l|items];
    try (intros _; eexists; split; [reflexivity|left; reflexivity]).
  unfold loop_accepts, build_record.
  rewrite py_get_field; cbn [bind].
  destruct (usable_text (field items "title")) eqn:Ht; cbn [andb].
  2:{ intros _. destruct (add_text_unusable _ " " Ht) as [d ->].
      eexists; split; [reflexivity|right; reflexivity]. }
  rewrite (or_empty_usable _ Ht); cbn [py_add_text bind].
  rewrite py_get_field; cbn [bind].
  destruct (usable_text (field items "description")) eqn:Hd; cbn [andb].
  2:{ intros _. destruct (text_add_unusable _ (text_of (field items "title") ++ " ") Hd)
        as [d ->].
      eexists; split; [reflexivity|right; reflexivity]. }
  rewrite (or_empty_usable _ Hd); cbn [py_text_add bind].
  repeat (rewrite py_get_field; cbn [bind]).
  unfold py_get at 1.
  destruct (lookup "source" items) as [s|]; [|discriminate]. cbn [bind].
  destruct s; try discriminate; intros _;
    (eexists; split; [reflexivity|left; reflexivity]).
Qed.

(** X2. The body of the loop runs to its end exactly on the objects
    whose title and description are text or count as false and whose
    source, when present, is an object: it then appends the row of the
    literal. On any other item it raises, and what it raises is an
    [AttributeError] on [get] or a [TypeError] of [+]. *)
Theorem loop_body_outcome (article : pyval) :
  (loop_accepts article = true ->
   exists items,
     article = PDict items /\
     build_record polarity_scores article =
       Ok (record (field items "title") (field items "description")
                  (field items "url")
                  (PStr (sentiment_class (polarity_scores (content_of items))))
                  (PFloat (polarity_scores (content_of items)))
                  (source_name items) (field items "publishedAt"))) /\
  (loop_accepts article = false ->
   exists e,
     build_record polarity_scores article = Raise e /\
     (is_AttributeError_get e = true \/ is_TypeError e = true)).
Proof.
  split; [|apply build_record_rejected].
  intros Hok. destruct article; try discriminate.
  eexists. split; [reflexivity|]. now apply build_record_accepted.
Qed.

(** X3. An article whose [source] key is present and null makes line 46
    raise [AttributeError]: the default [{}] is used for an absent key
    only. The exception is not caught, and a response that starts with
    such an article shows nothing of the articles. *)
Theorem null_source_raises (items : dict) :
  usable_text (field items "title") = true ->
  usable_text (field items "description") = true ->
  lookup "source" items = Some PNone ->
  build_record polarity_scores (PDict items) = Raise (AttributeError "NoneType" "get") /\
  forall rest,
    batch infer_string polarity_scores parse_datetime py_repr (PList (PDict items :: rest))
    = ([], Uncaught (AttributeError "NoneType" "get")).
Proof.
  intros Ht Hd Hs.
  assert (Hraise : build_record polarity_scores (PDict items)
                   = Raise (AttributeError "NoneType" "get")).
  { unfold build_record.
    rewrite py_get_field; cbn [bind].
    rewrite (or_empty_usable _ Ht); cbn [py_add_text bind].
    rewrite py_get_field; cbn [bind].
    rewrite (or_empty_usable _ Hd); cbn [py_text_add bind].
    repeat (rewrite py_get_field; cbn [bind]).
    unfold py_get at 1. rewrite Hs. reflexivity. }
  split; [exact Hraise|]. intros rest.
  unfold batch. cbn [py_iter lift]. rewrite seq_ret. cbn [transform].
  rewrite Hraise. reflexivity.
Qed.

(** X4. The loop keeps no partial result: when the body raises on an
    article, the rows of the articles before it are lost with it, the
    exception ends the run, and no heading, table or chart is shown for
    the articles that were read. *)
Theorem first_bad_article_ends_the_run
    (good : list pyval) (bad : pyval) (rest : list pyval) (e : exn) :
  forallb loop_accepts good = true ->
  build_record polarity_scores bad = Raise e ->
  transform polarity_scores (good ++ bad :: rest) [] = Raise e /\
  batch infer_string polarity_scores parse_datetime py_repr (PList (good ++ bad :: rest))
  = ([], Uncaught e).
Proof.
  intros Hgood Hbad.
  assert (Hloop : transform polarity_scores (good ++ bad :: rest) [] = Raise e).
  { rewrite transform_mapM.
    assert (H : mapM (build_record polarity_scores) (good ++ bad :: rest) = Raise e).
    { induction good as [|a good IH]; cbn [app mapM].
      - now rewrite Hbad.
      - cbn [forallb] in Hgood. apply andb_prop in Hgood as [Ha Hgood].
        destruct a; try discriminate.
        rewrite (build_record_accepted _ Ha), (IH Hgood). reflexivity. }
    now rewrite H. }
  split; [exact Hloop|].
  unfold batch. cbn [py_iter lift]. rewrite seq_ret, Hloop. reflexivity.
Qed.

(** **** Failures of the fetch, and the pages that depend on it *)

Lemma main_page_with_key (api_key : string) :
  api_key <> "" ->
  main_page infer_string polarity_scores requests_get parse_datetime py_repr api_key =
    ([ SetPageConfig "Financial News Sentiment" "wide";
       Title "📈 Financial News Sentiment Dashboard";
       SidebarTextInput "Enter your NewsAPI Key" ]
       ++ trace (seq (fetch requests_get api_key)
                     (batch infer_string polarity_scores parse_datetime py_repr)),
     ending (seq (fetch requests_get api_key)
                 (batch infer_string polarity_scores parse_datetime py_repr)))%list.
Proof.
  intros Hkey. apply truthy_text in Hkey. unfold main_page. rewrite Hkey.
  cbn [negb]. rewrite !seq_emit, seq_ret. reflexivity.
Qed.

Lemma dashboard_uncaught (api_key custom_url : string) (t : list event) (e : exn) :
  main_page infer_string polarity_scores requests_get parse_datetime py_repr api_key
    = (t, Uncaught e) ->
  dashboard infer_string polarity_scores requests_get parse_datetime py_repr
            import_newspaper download parse api_key custom_url
    = (t, Uncaught e).
Proof. intros H. unfold dashboard. now rewrite H. Qed.

(** X5. Nothing guards the fetch but the status check. With a key, an
    exception of the transport, an exception of [response.json()], a
    body that is not an object, and an [articles] entry that cannot be
    iterated each end the run uncaught, after the request and before
    anything is drawn. *)
Theorem fetch_failures_are_uncaught (api_key custom_url : string) :
  api_key <> "" ->
  (forall e,
     requests_get url (params api_key) = Raise e ->
     dashboard infer_string polarity_scores requests_get parse_datetime py_repr
               import_newspaper download parse api_key custom_url
     = (header api_key, Uncaught e)) /\
  (forall response e,
     requests_get url (params api_key) = Ok response ->
     status_code response = 200%Z ->
     json response = Raise e ->
     dashboard infer_string polarity_scores requests_get parse_datetime py_repr
               import_newspaper download parse api_key custom_url
     = (header api_key, Uncaught e)) /\
  (forall response body,
     requests_get url (params api_key) = Ok response ->
     status_code response = 200%Z ->
     json response = Ok body ->
     is_dict body = false ->
     dashboard infer_string polarity_scores requests_get parse_datetime py_repr
               import_newspaper download parse api_key custom_url
     = (header api_key, Uncaught (AttributeError (type_name body) "get"))) /\
  (forall response items v e,
     requests_get url (params api_key) = Ok response ->
     status_code response = 200%Z ->
     json response = Ok (PDict items) ->
     lookup "articles" items = Some v ->
     py_iter v = Raise e ->
     dashboard infer_string polarity_scores requests_get parse_datetime py_repr
               import_newspaper download parse api_key custom_url
     = (header api_key, Uncaught e)).
Proof.
  intros Hkey. repeat apply conj.
  - intros e Hget. apply dashboard_uncaught.
    rewrite (main_page_with_key _ Hkey). unfold fetch. rewrite Hget. reflexivity.
  - intros response e Hget Hstatus Hjson. apply dashboard_uncaught.
    rewrite (main_page_with_key _ Hkey). unfold fetch. rewrite Hget.
    cbn [lift]. rewrite seq_emit, seq_ret, Hstatus. cbn [negb Z.eqb Pos.eqb].
    rewrite seq_ret, Hjson. reflexivity.
  - intros response body Hget Hstatus Hjson Hbody. apply dashboard_uncaught.
    rewrite (main_page_with_key _ Hkey). unfold fetch. rewrite Hget.
    cbn [lift]. rewrite seq_emit, seq_ret, Hstatus. cbn [negb Z.eqb Pos.eqb].
    rewrite seq_ret, Hjson. cbn [lift]. rewrite seq_ret.
    destruct body; try discriminate; reflexivity.
  - intros response items v e Hget Hstatus Hjson Hv Hiter. apply dashboard_uncaught.
    rewrite (main_page_fetched _ _ _ _ _ api_key response (PDict items) v)
      by (try assumption; unfold py_get; now rewrite Hv).
    unfold batch. rewrite Hiter. reflexivity.
Qed.

(** X6. A response whose articles are empty, in whatever way the body
    says so, ends the run on line 58 with the [ValueError] of pandas,
    right after the heading of the table. *)
Theorem no_article_no_dashboard
    (api_key custom_url : string) (response : Response) (body found : pyval) :
  api_key <> "" ->
  requests_get url (params api_key) = Ok response ->
  status_code response = 200%Z ->
  json response = Ok body ->
  py_get body "articles" (PList []) = Ok found ->
  py_iter found = Ok [] ->
  dashboard infer_string polarity_scores requests_get parse_datetime py_repr
            import_newspaper download parse api_key custom_url
  = ((header api_key ++ [Subheader "📰 Articles & Sentiment"])%list,
     Uncaught (ValueError "Cannot set a DataFrame without columns to the column Title")).
Proof.
  intros Hkey Hget Hstatus Hjson Hfound Hiter. apply dashboard_uncaught.
  rewrite (main_page_fetched _ _ _ _ _ api_key response body found) by assumption.
  unfold batch. rewrite Hiter. reflexivity.
Qed.

(** X11. The custom URL section is shown exactly when the page above
    it ran to its end: a missing key, a failed fetch or an uncaught
    exception above leaves the run as the page left it, without the
    heading and without the text box. *)
Theorem url_section_needs_the_page (api_key custom_url : string) :
  (In (Subheader "🔍 Analyze Custom News URL")
      (trace (dashboard infer_string polarity_scores requests_get parse_datetime py_repr
                        import_newspaper download parse api_key custom_url))
   <-> ending (main_page infer_string polarity_scores requests_get parse_datetime py_repr api_key)
       = Done tt) /\
  (ending (main_page infer_string polarity_scores requests_get parse_datetime py_repr api_key)
     <> Done tt ->
   dashboard infer_string polarity_scores requests_get parse_datetime py_repr
             import_newspaper download parse api_key custom_url
   = main_page infer_string polarity_scores requests_get parse_datetime py_repr api_key).
Proof.
  pose proof (main_page_never_shows_url_heading api_key) as Hquiet.
  unfold silent in Hquiet. unfold dashboard.
  destruct (main_page infer_string polarity_scores requests_get parse_datetime py_repr api_key)
    as [t [[]|e|]] eqn:Hmain; cbn [trace ending fst snd] in *.
  - split; [|congruence]. split; [reflexivity|]. intros _.
    rewrite seq_done. cbn [trace fst]. apply in_or_app. right.
    unfold custom_url_section. rewrite seq_emit. left. reflexivity.
  - split; [|reflexivity]. split; [|discriminate].
    cbn [seq trace fst]. intros Hin.
    assert (Hf : In (Subheader "🔍 Analyze Custom News URL") (filter is_url_heading t)).
    { apply filter_In. split; [exact Hin|reflexivity]. }
    rewrite Hquiet in Hf. destruct Hf.
  - split; [|reflexivity]. split; [|discriminate].
    cbn [seq trace fst]. intros Hin.
    assert (Hf : In (Subheader "🔍 Analyze Custom News URL") (filter is_url_heading t)).
    { apply filter_In. split; [exact Hin|reflexivity]. }
    rewrite Hquiet in Hf. destruct Hf.
Qed.

(** X10. The title of a NewsAPI article that has one is placed in the
    link of the table as it is, and so is its address: the script
    escapes neither of them, and no dtype changes a text. *)
Theorem title_is_shown_verbatim
    (articles : list pyval) (i : nat) (items : dict) (t u : string) :
  forallb newsapi_article articles = true ->
  nth_error articles i = Some (PDict items) ->
  field items "title" = PStr t ->
  t <> "" ->
  field items "url" = PStr u ->
  exists data shown,
    transform polarity_scores articles [] = Ok data /\
    show_table py_repr (DataFrame_of infer_string data) =
      ([ Subheader "📰 Articles & Sentiment";
         Write "Click on a title to read the full article.";
         WriteHtml (table_view py_repr (stored infer_string data)) ],
       Done tt) /\
    nth_error (rows (table_view py_repr (stored infer_string data))) i = Some shown /\
    lookup "Title" shown =
      Some (PStr ("<a href='" ++ u ++ "' target='_blank'>" ++ t ++ "</a>")).
Proof.
  intros Hwf Hi Htitle Ht Hurl.
  destruct (transform_newsapi polarity_scores articles Hwf) as [data Hdata].
  pose proof (transform_shaped _ _ _ Hdata) as Hshaped.
  destruct (stored_newsapi_cell infer_string polarity_scores "title" "Title"
              articles data i items) as (kept & Hkept & Hcell);
    try assumption; [cbn; auto 6|].
  destruct (stored_newsapi_cell infer_string polarity_scores "url" "URL"
              articles data i items) as (kept' & Hkept' & Hlink);
    try assumption; [cbn; auto 6|].
  rewrite Hkept in Hkept'. injection Hkept' as <-.
  rewrite Htitle in Hcell. rewrite Hurl in Hlink. cbn [text_cell] in Hcell, Hlink.
  assert (Hne : data <> []).
  { intros ->. apply transform_length in Hdata. destruct articles; [|discriminate].
    destruct i; discriminate. }
  exists data, (styled_row py_repr kept). split; [exact Hdata|]. split.
  { rewrite (DataFrame_of_shaped infer_string data Hne Hshaped).
    apply show_table_shaped;
      [now apply stored_nonempty | now apply stored_all_shaped]. }
  split.
  { cbn [table_view rows]. rewrite nth_error_map, Hkept. reflexivity. }
  cbn [styled_row lookup String.eqb Ascii.eqb Bool.eqb]. rewrite Hcell, Hlink.
  apply String.eqb_neq in Ht. unfold link_text. cbn [truthy]. rewrite Ht.
  reflexivity.
Qed.

Lemma labels_of_the_loop (articles : list pyval) (data : list dict) :
  transform polarity_scores articles [] = Ok data ->
  Forall (fun v => exists c, v = PStr (sentiment_class c))
         (map (fun row => field row "Sentiment") data).
Proof.
  rewrite transform_Forall2. induction 1 as [|a row l l' Ha _ IH]; cbn [map];
    constructor; [|exact IH].
  destruct (build_record_shape _ _ _ Ha) as (T & D & U & c & So & P & ->).
  exists c. reflexivity.
Qed.

(** X7. The frame drawn by the pie chart counts the rows: its counts
    add up to the number of articles, its labels are distinct and are
    among "positive", "negative" and "neutral", each count is positive
    and is the number of rows with that label, and the counts come in
    descending order. *)
Theorem distribution_counts_the_rows (articles : list pyval) (data : list dict) :
  transform polarity_scores articles [] = Ok data ->
  data <> [] ->
  exists counts,
    show_distribution (DataFrame_of infer_string data) =
      ([ Subheader "📊 Sentiment Distribution";
         AltairChart (chart (counts_frame counts)) ],
       Done tt) /\
    list_sum (map snd counts) = List.length articles /\
    NoDup (map fst counts) /\
    Sorted (fun a b => snd b <= snd a) counts /\
    Forall (fun vn =>
              0 < snd vn /\
              exists l, fst vn = PStr l /\
                        (l = "positive" \/ l = "negative" \/ l = "neutral") /\
                        snd vn = labelled l data) counts.
Proof.
  intros Hdata Hne.
  pose proof (transform_shaped _ _ _ Hdata) as Hshaped.
  pose proof (labels_of_the_loop _ _ Hdata) as Hlabels.
  set (col := map (fun row => field row "Sentiment") data) in *.
  exists (value_counts same_text col).
  assert (Htext : Forall (fun v => is_text v = true) col).
  { eapply Forall_impl; [|exact Hlabels]. now intros v [c ->]. }
  destruct (tallies_keys col [] Htext (NoDup_nil _) (Forall_nil _))
    as (Hnd & Hpos & Hkeys).
  cbv zeta in Hnd, Hpos, Hkeys.
  assert (Hperm : Permutation (value_counts same_text col)
                    (fold_left (fun acc v => tally same_text v acc) col []))
    by apply sort_by_perm.
  assert (Hnd' : NoDup (map fst (value_counts same_text col))).
  { eapply Permutation_NoDup; [|exact Hnd].
    apply Permutation_map. now symmetry. }
  split; [|split; [|split; [|split]]].
  - rewrite (DataFrame_of_shaped infer_string data Hne Hshaped).
    rewrite (show_distribution_shaped _ (stored_all_shaped infer_string data Hne Hshaped)).
    now rewrite (sentiment_counts_stored infer_string _ _ _ Hdata).
  - unfold value_counts.
    rewrite (list_sum_perm _ _ (Permutation_map snd (sort_by_perm _ _))).
    rewrite tallies_sum. unfold col. rewrite length_map.
    rewrite (transform_length _ _ _ Hdata). cbn [map list_sum fold_right]. lia.
  - exact Hnd'.
  - unfold value_counts.
    apply (Sorted_weaken (fun a b : pyval * nat => Nat.leb (snd b) (snd a) = true)).
    + intros a b. apply Nat.leb_le.
    + apply sort_by_sorted. intros a b. rewrite Nat.leb_gt, Nat.leb_le. lia.
  - apply Forall_forall. intros [v n] Hin. cbn [fst snd].
    assert (Hin0 : In (v, n) (fold_left (fun acc v => tally same_text v acc) col []))
      by (eapply Permutation_in; eassumption).
    split.
    { rewrite Forall_forall in Hpos. exact (Hpos _ Hin0). }
    destruct (Hkeys v) as [Hv | []].
    { change v with (fst (v, n)). now apply in_map. }
    rewrite Forall_forall in Hlabels. destruct (Hlabels v Hv) as [c ->].
    exists (sentiment_class c). split; [reflexivity|]. split.
    { unfold sentiment_class.
      destruct (0.05 <? c)%float; [now left|].
      destruct (c <? -0.05)%float; [right; now left|right; now right]. }
    rewrite <- (total_of_entry _ _ _ Hnd' Hin), total_value_counts.
    unfold labelled, col. rewrite <- (length_map (fun row => field row "Sentiment")).
    f_equal. clear. induction data as [|row data IH]; cbn [map filter]; [reflexivity|].
    destruct (same_text (field row "Sentiment") (PStr (sentiment_class c)));
      cbn [map]; now rewrite IH.
Qed.

(** **** The copy, the charts and the export *)

Lemma lookup_as_cells_rows (k : string) (data : list dict) :
  map (lookup k) (rows (map_cells Obj (mkFrame record_keys data)))
  = map (fun row => option_map Obj (lookup k row)) data.
Proof.
  cbn [map_cells rows]. rewrite map_map. apply map_ext. intros row.
  apply lookup_as_cells.
Qed.

(** X8. For NewsAPI articles whose time stamps parse, the link markup
    is written to the copy only. The table shows five columns with a
    link as [Title]; the bar chart, the trend chart and the exported
    frame carry the titles as the frame holds them: the text of a
    title as it came, and a missing value ([None] or NaN) for a title
    that is absent or null. The exported frame has the seven columns
    of the loop, in the order of the loop, with the parsed time stamps
    as [Published At]. *)
Theorem link_markup_stays_in_the_table
    (articles : list pyval) (data : list dict) (times : list datetime) :
  forallb newsapi_article articles = true ->
  transform polarity_scores articles [] = Ok data ->
  data <> [] ->
  to_datetime parse_datetime (published (stored infer_string data)) = Ok times ->
  exists table bar df_sorted df titles,
    batch infer_string polarity_scores parse_datetime py_repr (PList articles) =
      ([ Subheader "📰 Articles & Sentiment";
         Write "Click on a title to read the full article.";
         WriteHtml table;
         Subheader "📊 Sentiment Distribution";
         AltairChart (chart (sentiment_counts data));
         Subheader "📉 Article Sentiment Scores";
         AltairChart bar;
         Subheader "📅 Sentiment Over Time";
         AltairChart (line_chart df_sorted);
         DownloadButton "Download CSV" df "financial_news_sentiment.csv" "text/csv" ],
       Done tt) /\
    columns table = ["Title"; "Sentiment"; "Compound"; "Source"; "Published At"] /\
    map (lookup "Title") (rows table)
      = map (fun row => Some (PStr (make_clickable py_repr (field row "URL")
                                                   (link_text (field row "Title")))))
            (stored infer_string data) /\
    Forall2 (fun a T => exists items,
               a = PDict items /\
               (forall t, field items "title" = PStr t -> T = PStr t) /\
               (field items "title" = PNone -> is_missing T = true))
            articles titles /\
    map (lookup "Title") (rows (chart_data bar)) = map (fun T => Some (Obj T)) titles /\
    Permutation (map (lookup "Title") (rows df_sorted))
                (map (fun T => Some (Obj T)) titles) /\
    columns df = record_keys /\
    map (lookup "Title") (rows df) = map (fun T => Some (Obj T)) titles /\
    map (lookup "Published At") (rows df) = map (fun t => Some (Time t)) times.
Proof.
  intros Hwf Hdata Hne Htimes.
  set (titles := map (fun row => field row "Title") (stored infer_string data)).
  pose proof (transform_shaped _ _ _ Hdata) as Hshaped.
  pose proof (stored_all_shaped infer_string data Hne Hshaped) as Hkept.
  assert (Hlen : List.length times = List.length (stored infer_string data)).
  { rewrite (mapM_length _ _ _ Htimes). unfold published. apply length_map. }
  assert (Htitles : Forall2 (fun a T => exists items,
                       a = PDict items /\
                       (forall t, field items "title" = PStr t -> T = PStr t) /\
                       (field items "title" = PNone -> is_missing T = true))
                    articles titles).
  { unfold titles.
    rewrite (stored_newsapi_column infer_string polarity_scores "title" "Title"
               articles data) by (assumption || (cbn; auto 6)).
    unfold entries at 2. rewrite map_map.
    generalize (entries "title" articles). intros col.
    clear -Hwf. induction articles as [|a l IH]; cbn [map]; constructor.
    - cbn [forallb] in Hwf. apply andb_prop in Hwf as [Ha _].
      destruct a as [| | | | | |its]; try discriminate.
      exists its. split; [reflexivity|].
      split.
      + intros t ->. reflexivity.
      + intros ->. cbn [text_cell]. now destruct (infer_string && existsb is_text col).
    - apply IH. cbn [forallb] in Hwf. now apply andb_prop in Hwf as [_ Hl]. }
  assert (Hcells : map (fun row => option_map Obj (lookup "Title" row))
                       (stored infer_string data)
                   = map (fun T => Some (Obj T)) titles).
  { unfold titles. rewrite map_map. apply map_ext_in. intros row Hrow.
    rewrite Forall_forall in Hkept.
    rewrite (lookup_shaped row "Title" (Hkept row Hrow)) by (cbn; auto 8).
    reflexivity. }
  exists (table_view py_repr (stored infer_string data)),
         (bar_chart (mkFrame record_keys (stored infer_string data))),
         (mkFrame record_keys
                  (sort_by by_time (timed_rows (stored infer_string data) times))),
         (mkFrame record_keys (timed_rows (stored infer_string data) times)),
         titles.
  split; [|split; [|split; [|split; [|split; [|split; [|split; [|split]]]]]]].
  - rewrite (batch_shaped _ _ _ _ _ _ Hdata Hne), Htimes.
    unfold upper_views. now rewrite (sentiment_counts_stored infer_string _ _ _ Hdata).
  - reflexivity.
  - cbn [table_view rows]. rewrite map_map. apply map_ext. reflexivity.
  - exact Htitles.
  - rewrite <- Hcells. apply lookup_as_cells_rows.
  - cbn [rows]. rewrite <- Hcells,
      <- (timed_rows_other "Title" (stored infer_string data) times)
      by (discriminate || assumption).
    apply Permutation_map, sort_by_perm.
  - reflexivity.
  - cbn [rows]. rewrite <- Hcells. apply timed_rows_other; [discriminate|assumption].
  - cbn [rows]. now apply timed_rows_published.
Qed.

(** X9. The trend chart is drawn in chronological order: the time
    stamps of its frame are those that line 89 parsed, every row is
    followed only by rows that are not earlier, and the rows without a
    time stamp come last. *)
Theorem trend_is_chronological
    (articles : list pyval) (data : list dict) (times : list datetime) :
  transform polarity_scores articles [] = Ok data ->
  data <> [] ->
  to_datetime parse_datetime (published (stored infer_string data)) = Ok times ->
  exists df_sorted df,
    show_trend parse_datetime (DataFrame_of infer_string data) =
      ([ Subheader "📅 Sentiment Over Time"; AltairChart (line_chart df_sorted) ],
       Done df) /\
    Permutation (map (time_key "Published At") (rows df_sorted)) times /\
    forall before x after,
      rows df_sorted = (before ++ x :: after)%list ->
      Forall (fun y =>
                match time_key "Published At" x, time_key "Published At" y with
                | Timestamp a, Timestamp b => (a <= b)%Z
                | NaT, Timestamp _ => False
                | _, NaT => True
                end) after.
Proof.
  intros Hdata Hne Htimes.
  pose proof (transform_shaped _ _ _ Hdata) as Hshaped.
  pose proof (stored_all_shaped infer_string data Hne Hshaped) as Hkept.
  set (kept := stored infer_string data) in *.
  assert (Hlen : List.length times = List.length kept).
  { rewrite (mapM_length _ _ _ Htimes). unfold published. apply length_map. }
  exists (mkFrame record_keys (sort_by by_time (timed_rows kept times))),
         (mkFrame record_keys (timed_rows kept times)).
  split; [|split].
  - rewrite (DataFrame_of_shaped infer_string data Hne Hshaped). fold kept.
    rewrite (show_trend_shaped _ _ Hkept). now rewrite Htimes.
  - cbn [rows]. rewrite (Permutation_map _ (sort_by_perm by_time _)).
    assert (Hkeys : map (time_key "Published At") (timed_rows kept times) = times).
    { pose proof (timed_rows_published kept times Hlen) as Hpub.
      revert Hpub. generalize (timed_rows kept times). clear.
      intros l. revert times. induction l as [|x l IH]; intros [|t times] H;
        cbn [map] in *; try discriminate; [reflexivity|].
      injection H as Hx Hl. unfold time_key at 1. rewrite Hx. f_equal. now apply IH. }
    now rewrite Hkeys.
  - cbn [rows]. intros before x after Hsplit.
    assert (Hsorted : StronglySorted (fun x y => by_time x y = true)
                        (sort_by by_time (timed_rows kept times))).
    { apply Sorted_StronglySorted.
      - intros a b c. apply by_time_trans.
      - apply sort_by_sorted. intros a b. apply datetime_leb_total. }
    rewrite Hsplit in Hsorted. apply strongly_sorted_after in Hsorted.
    eapply Forall_impl; [|exact Hsorted].
    intros y. unfold by_time.
    destruct (time_key "Published At" x), (time_key "Published At" y);
      cbn [datetime_leb]; try easy. apply Z.leb_le.
Qed.

(** **** The custom URL section (lines 103-121) *)

Lemma analyze_ends (custom_url : string) :
  ending (analyze polarity_scores py_repr import_newspaper download parse custom_url)
  = Done tt.
Proof.
  unfold analyze.
  destruct import_newspaper as [[]|e]; [|reflexivity].
  destruct (download custom_url) as [page|e]; [|reflexivity].
  cbn [lift]. rewrite !seq_ret.
  destruct (parse page) as [article|e]; reflexivity.
Qed.

Lemma custom_url_section_ends (custom_url : string) :
  ending (custom_url_section polarity_scores py_repr import_newspaper download parse
                             custom_url) = Done tt.
Proof.
  unfold custom_url_section. rewrite !seq_emit. cbn [ending snd].
  destruct (truthy (PStr custom_url)); [apply analyze_ends|reflexivity].
Qed.

(** X12. The custom URL section never ends a run: whatever the
    extractor does, the section ends normally, so a run ends as the page
    above it ended; and the section adds at most one error message. *)
Theorem run_ends_as_the_page_above (api_key custom_url : string) :
  ending (custom_url_section polarity_scores py_repr import_newspaper download parse
                             custom_url) = Done tt /\
  ending (dashboard infer_string polarity_scores requests_get parse_datetime py_repr
                    import_newspaper download parse api_key custom_url)
  = ending (main_page infer_string polarity_scores requests_get parse_datetime py_repr api_key) /\
  (exists below,
     trace (dashboard infer_string polarity_scores requests_get parse_datetime py_repr
                      import_newspaper download parse api_key custom_url)
     = (trace (main_page infer_string polarity_scores requests_get parse_datetime py_repr api_key)
        ++ below)%list /\
     List.length (filter is_error below) <= 1).
Proof.
  split; [apply custom_url_section_ends|].
  pose proof (custom_url_section_ends custom_url) as Hend.
  unfold dashboard. rewrite ending_seq, trace_seq.
  destruct (ending (main_page infer_string polarity_scores requests_get parse_datetime py_repr api_key))
    as [[]|e|]; (split; [first [exact Hend | reflexivity]|]).
  - eexists. split; [reflexivity|].
    unfold custom_url_section. rewrite !seq_emit. cbn [trace fst filter is_error].
    destruct (truthy (PStr custom_url)); [|cbn; lia].
    unfold analyze.
    destruct import_newspaper as [[]|e]; [|cbn; lia].
    destruct (download custom_url) as [page|e]; [|cbn; lia].
    cbn [lift]. rewrite !seq_ret.
    destruct (parse page) as [article|e]; cbn; lia.
  - exists []. split; [reflexivity|cbn; lia].
  - exists []. split; [reflexivity|cbn; lia].
Qed.

End Further.

(* ===================================================================== *)
(** ** Concrete instances of the further properties *)
(* ===================================================================== *)

Lemma loop_body_outcome_witness :
  (exists items,
     Sample.art3 = PDict items /\
     build_record Sample.scorer Sample.art3 =
       Ok (record (field items "title") (field items "description")
                  (field items "url")
                  (PStr (sentiment_class (Sample.scorer (content_of items))))
                  (PFloat (Sample.scorer (content_of items)))
                  (source_name items) (field items "publishedAt"))) /\
  (exists e,
     build_record Sample.scorer Fault.number_title = Raise e /\
     (is_AttributeError_get e = true \/ is_TypeError e = true)).
Proof.
  split.
  - exact (proj1 (loop_body_outcome Sample.scorer Sample.art3) eq_refl).
  - exact (proj2 (loop_body_outcome Sample.scorer Fault.number_title) eq_refl).
Defined.

Lemma null_source_raises_witness :
  build_record Sample.scorer (PDict Fault.null_source_items)
    = Raise (AttributeError "NoneType" "get") /\
  batch true Sample.scorer Sample.parse_datetime Sample.py_repr
        (PList [PDict Fault.null_source_items; Sample.art1])
    = ([], Uncaught (AttributeError "NoneType" "get")).
Proof.
  destruct (null_source_raises true Sample.scorer Sample.parse_datetime Sample.py_repr
                               Fault.null_source_items eq_refl eq_refl eq_refl)
    as [Hrow Hrun].
  split; [exact Hrow|exact (Hrun [Sample.art1])].
Defined.

Lemma first_bad_article_ends_the_run_witness :
  transform Sample.scorer [Sample.art1; Sample.art2; Fault.number_title; Sample.art3] []
    = Raise (TypeError "unsupported operand type(s) for +: 'int' and 'str'") /\
  batch true Sample.scorer Sample.parse_datetime Sample.py_repr
        (PList [Sample.art1; Sample.art2; Fault.number_title; Sample.art3])
    = ([], Uncaught (TypeError "unsupported operand type(s) for +: 'int' and 'str'")).
Proof.
  exact (first_bad_article_ends_the_run
           true Sample.scorer Sample.parse_datetime Sample.py_repr
           [Sample.art1; Sample.art2] Fault.number_title [Sample.art3]
           (TypeError "unsupported operand type(s) for +: 'int' and 'str'")
           eq_refl eq_refl).
Defined.

Lemma fetch_failures_are_uncaught_witness :
  dashboard true Sample.scorer Fault.offline Sample.parse_datetime Sample.py_repr
            (Ok tt) Sample.fetch_page Sample.extract "key" "https://news.example/fed"
    = (header "key",
       Uncaught (LibraryError "HTTPSConnectionPool: Max retries exceeded")) /\
  dashboard true Sample.scorer Fault.not_json Sample.parse_datetime Sample.py_repr
            (Ok tt) Sample.fetch_page Sample.extract "key" "https://news.example/fed"
    = (header "key",
       Uncaught (LibraryError "Expecting value: line 1 column 1 (char 0)")) /\
  dashboard true Sample.scorer (Sample.respond 200 (PList [])) Sample.parse_datetime
            Sample.py_repr (Ok tt) Sample.fetch_page Sample.extract "key"
            "https://news.example/fed"
    = (header "key", Uncaught (AttributeError "list" "get")) /\
  dashboard true Sample.scorer (Sample.respond 200 (PDict [("articles", PNone)]))
            Sample.parse_datetime Sample.py_repr (Ok tt) Sample.fetch_page
            Sample.extract "key" "https://news.example/fed"
    = (header "key", Uncaught (TypeError "'NoneType' object is not iterable")).
Proof.
  assert (Hkey : "key" <> "") by discriminate.
  split; [|split; [|split]].
  - exact (proj1 (fetch_failures_are_uncaught
                    true Sample.scorer Fault.offline Sample.parse_datetime Sample.py_repr
                    (Ok tt) Sample.fetch_page Sample.extract "key"
                    "https://news.example/fed" Hkey)
                 _ eq_refl).
  - exact (proj1 (proj2 (fetch_failures_are_uncaught
                    true Sample.scorer Fault.not_json Sample.parse_datetime Sample.py_repr
                    (Ok tt) Sample.fetch_page Sample.extract "key"
                    "https://news.example/fed" Hkey))
                 _ _ eq_refl eq_refl eq_refl).
  - exact (proj1 (proj2 (proj2 (fetch_failures_are_uncaught
                    true Sample.scorer (Sample.respond 200 (PList []))
                    Sample.parse_datetime Sample.py_repr
                    (Ok tt) Sample.fetch_page Sample.extract "key"
                    "https://news.example/fed" Hkey)))
                 _ (PList []) eq_refl eq_refl eq_refl eq_refl).
  - exact (proj2 (proj2 (proj2 (fetch_failures_are_uncaught
                    true Sample.scorer (Sample.respond 200 (PDict [("articles", PNone)]))
                    Sample.parse_datetime Sample.py_repr
                    (Ok tt) Sample.fetch_page Sample.extract "key"
                    "https://news.example/fed" Hkey)))
                 _ _ PNone _ eq_refl eq_refl eq_refl eq_refl eq_refl).
Defined.

Lemma no_article_no_dashboard_witness :
  dashboard true Sample.scorer (Sample.respond 200 (Sample.body []))
            Sample.parse_datetime Sample.py_repr (Ok tt) Sample.fetch_page
            Sample.extract "key" "https://news.example/fed"
  = ([ SetPageConfig "Financial News Sentiment" "wide";
       Title "📈 Financial News Sentiment Dashboard";
       SidebarTextInput "Enter your NewsAPI Key";
       HttpGet url (params "key");
       Subheader "📰 Articles & Sentiment" ],
     Uncaught (ValueError "Cannot set a DataFrame without columns to the column Title")).
Proof.
  apply (no_article_no_dashboard
           true Sample.scorer (Sample.respond 200 (Sample.body []))
           Sample.parse_datetime Sample.py_repr (Ok tt) Sample.fetch_page
           Sample.extract "key" "https://news.example/fed"
           (mkResponse 200 (Ok (Sample.body []))) (Sample.body []) (PList []));
    (discriminate || reflexivity).
Defined.

Lemma distribution_counts_the_rows_witness :
  exists counts,
    show_distribution (DataFrame_of true Sample.rows) =
      ([ Subheader "📊 Sentiment Distribution";
         AltairChart (chart (counts_frame counts)) ],
       Done tt) /\
    list_sum (map snd counts) = 3 /\
    Forall (fun vn => snd vn = 1) counts.
Proof.
  assert (Hdata : transform Sample.scorer Sample.articles [] = Ok Sample.rows)
    by reflexivity.
  assert (Hne : Sample.rows <> []) by discriminate.
  destruct (distribution_counts_the_rows true Sample.scorer Sample.articles Sample.rows
                                         Hdata Hne)
    as (counts & Hshown & Hsum & _ & _ & Hcounts).
  exists counts. split; [exact Hshown|]. split; [exact Hsum|].
  eapply Forall_impl; [|exact Hcounts].
  intros vn (_ & l & _ & [-> | [-> | ->]] & ->); reflexivity.
Defined.

Lemma link_markup_stays_in_the_table_witness :
  exists table bar df,
    In (WriteHtml table)
       (trace (batch true Sample.scorer Sample.parse_datetime Sample.py_repr
                     (PList Sample.articles))) /\
    In (AltairChart bar)
       (trace (batch true Sample.scorer Sample.parse_datetime Sample.py_repr
                     (PList Sample.articles))) /\
    In (DownloadButton "Download CSV" df "financial_news_sentiment.csv" "text/csv")
       (trace (batch true Sample.scorer Sample.parse_datetime Sample.py_repr
                     (PList Sample.articles))) /\
    map (lookup "Title") (rows table)
      = [ Some (PStr "<a href='https://news.example/1' target='_blank'>Stocks rally</a>");
          Some (PStr "<a href='https://news.example/2' target='_blank'>nan</a>");
          Some (PStr "<a href='https://news.example/3' target='_blank'>nan</a>") ] /\
    map (lookup "Title") (rows (chart_data bar))
      = [ Some (Obj (PStr "Stocks rally")); Some (Obj NaN); Some (Obj NaN) ] /\
    map (lookup "Title") (rows df)
      = [ Some (Obj (PStr "Stocks rally")); Some (Obj NaN); Some (Obj NaN) ] /\
    map (lookup "Published At") (rows df)
      = [ Some (Time (Timestamp 1704153600000000000));
          Some (Time (Timestamp 1704067200000000000));
          Some (Time NaT) ].
Proof.
  assert (Hwf : forallb newsapi_article Sample.articles = true) by reflexivity.
  assert (Hdata : transform Sample.scorer Sample.articles [] = Ok Sample.rows)
    by reflexivity.
  assert (Hne : Sample.rows <> []) by discriminate.
  assert (Htimes : to_datetime Sample.parse_datetime (published (stored true Sample.rows))
                   = Ok Sample.times) by reflexivity.
  destruct (link_markup_stays_in_the_table
              true Sample.scorer Sample.parse_datetime Sample.py_repr
              Sample.articles Sample.rows Sample.times Hwf Hdata Hne Htimes)
    as (table & bar & df_sorted & df & titles & Hrun & _ & Htable & Htitles & Hbar
        & _ & _ & Hdf & Hpub).
  exists table, bar, df. rewrite Hrun. cbn [trace fst].
  split; [right; right; left; reflexivity|].
  split; [do 6 right; left; reflexivity|].
  split; [do 9 right; left; reflexivity|].
  split; [rewrite Htable; reflexivity|].
  pose proof (f_equal (fun m => match nth_error (trace m) 6 with
                                | Some (AltairChart c) =>
                                    map (lookup "Title") (rows (chart_data c))
                                | _ => []
                                end) Hrun) as Hshown.
  vm_compute in Hshown. rewrite <- Hbar in *.
  split; [symmetry; exact Hshown|]. split; [|exact Hpub].
  rewrite Hdf. symmetry. exact Hshown.
Defined.

Lemma trend_is_chronological_witness :
  exists df_sorted,
    In (AltairChart (line_chart df_sorted))
       (trace (show_trend Sample.parse_datetime (DataFrame_of true Sample.rows))) /\
    Permutation (map (time_key "Published At") (rows df_sorted)) Sample.times /\
    forall x after,
      rows df_sorted = x :: after ->
      Forall (fun y =>
                match time_key "Published At" x, time_key "Published At" y with
                | Timestamp a, Timestamp b => (a <= b)%Z
                | NaT, Timestamp _ => False
                | _, NaT => True
                end) after.
Proof.
  assert (Hdata : transform Sample.scorer Sample.articles [] = Ok Sample.rows)
    by reflexivity.
  assert (Hne : Sample.rows <> []) by discriminate.
  assert (Htimes : to_datetime Sample.parse_datetime (published (stored true Sample.rows))
                   = Ok Sample.times) by reflexivity.
  destruct (trend_is_chronological
              true Sample.scorer Sample.parse_datetime
              Sample.articles Sample.rows Sample.times Hdata Hne Htimes)
    as (df_sorted & df & Hshown & Hperm & Horder).
  exists df_sorted. rewrite Hshown. cbn [trace fst].
  split; [right; left; reflexivity|]. split; [exact Hperm|].
  intros x after Hrows. exact (Horder [] x after Hrows).
Defined.

Lemma title_is_shown_verbatim_witness :
  exists data shown,
    transform Sample.scorer [PDict Fault.markup_items; Sample.art2] [] = Ok data /\
    nth_error (rows (table_view Sample.py_repr (stored true data))) 0 = Some shown /\
    lookup "Title" shown =
      Some (PStr "<a href='https://news.example/5' target='_blank'><b>Stocks</b> rally</a>").
Proof.
  destruct (title_is_shown_verbatim
              true Sample.scorer Sample.py_repr [PDict Fault.markup_items; Sample.art2] 0
              Fault.markup_items "<b>Stocks</b> rally" "https://news.example/5")
    as (data & shown & Hdata & _ & Hshown & Htitle);
    try reflexivity; [discriminate|].
  exists data, shown. split; [exact Hdata|]. split; [exact Hshown|exact Htitle].
Defined.

Lemma url_section_needs_the_page_witness :
  ~ In (Subheader "🔍 Analyze Custom News URL")
       (trace (dashboard true Sample.scorer (Sample.respond 401 PNone) Sample.parse_datetime
                         Sample.py_repr (Ok tt) Sample.fetch_page Sample.extract
                         "an-invalid-key" "https://news.example/fed")) /\
  In (Subheader "🔍 Analyze Custom News URL")
     (trace (dashboard true Sample.scorer (Sample.respond 200 (Sample.body Sample.articles))
                       Sample.parse_datetime Sample.py_repr (Ok tt) Sample.fetch_page
                       Sample.extract "key" "https://news.example/fed")).
Proof.
  split.
  - intros Hin.
    apply (proj1 (url_section_needs_the_page
                    true Sample.scorer (Sample.respond 401 PNone) Sample.parse_datetime
                    Sample.py_repr (Ok tt) Sample.fetch_page Sample.extract
                    "an-invalid-key" "https://news.example/fed")) in Hin.
    discriminate Hin.
  - apply (proj1 (url_section_needs_the_page
                    true Sample.scorer (Sample.respond 200 (Sample.body Sample.articles))
                    Sample.parse_datetime Sample.py_repr (Ok tt) Sample.fetch_page
                    Sample.extract "key" "https://news.example/fed")).
    vm_compute. reflexivity.
Defined.
